(** * vHive CRI shim: container-creation coordination

    A shallow embedding of [cri/container_create.go]: the dispatch by
    container name, the workload path ([createUserContainer]), the
    sidecar path ([createQueueProxy]) and the four launch-parameter
    readers, together with the properties of the creation protocol.
    Logging is left out; the context argument plays no part. *)

From Stdlib Require Import ZArith String Ascii List Lia Bool.
From stdpp Require Import gmap strings.

Local Open Scope string_scope.
Local Open Scope list_scope.
Local Open Scope Z_scope.

(** ** Constants of the package *)

Definition userContainerName : string := "user-container".
Definition queueProxyName : string := "queue-proxy".
Definition revisionEnv : string := "K_REVISION".
Definition guestIPEnv : string := "GUEST_ADDR".
Definition guestPortEnv : string := "GUEST_PORT".
Definition guestImageEnv : string := "GUEST_IMAGE".
Definition guestMemorySizeMibEnv : string := "GUEST_MEM_SIZE_MIB".
Definition defaultMemorySizeMib : Z := 256.
Definition guestvCPUCount : string := "GUEST_VCPU_COUNT".
Definition defaultvCPUCount : Z := 1.
Definition guestPortValue : string := "50051".

(** ** Errors and results *)

(** The two sentinel errors of Go's [strconv]. *)
Inductive strconvErr : Type := ErrSyntax | ErrRange.

(** Go [error] values that occur in this package: [errors.New msg], the
    [*strconv.NumError] of a failed conversion, and the errors handed back
    by the collaborators (stock runtime, VM supervisor, the two stores),
    which the package never inspects. *)
Inductive error : Type :=
| ErrorString (msg : string)
| NumError (Func Num : string) (Err : strconvErr)
| ErrNoVMConfig (podID : string)
| ErrAlreadyActive (containerID : string)
| ErrCollaborator (msg : string).

(** A Go pair [(v, err)]: either [err == nil] and the value counts, or
    the error is returned and the value is the zero value. *)
Inductive result (A : Type) : Type :=
| Ok (a : A)
| Err (e : error).
Arguments Ok {A} a.
Arguments Err {A} e.

Definition isErr {A} (r : result A) : bool :=
  match r with Ok _ => false | Err _ => true end.

(** ** The CRI messages the package reads

    Pointer-typed message fields are options; the generated getters are
    nil-safe and give the zero value on a nil receiver. *)

Record KeyValue : Type := { Key : string; Value : string }.

Record ContainerMetadata : Type := { Name : string }.

Record ContainerConfig : Type :=
  { Metadata : option ContainerMetadata; Envs : list KeyValue }.

Record CreateContainerRequest : Type :=
  { PodSandboxId : string; Config : option ContainerConfig }.

Record CreateContainerResponse : Type := { ContainerId : string }.

Definition GetKey (kv : KeyValue) : string := Key kv.
Definition GetValue (kv : KeyValue) : string := Value kv.

Definition GetPodSandboxId (r : CreateContainerRequest) : string :=
  PodSandboxId r.

Definition GetConfig (r : CreateContainerRequest) : option ContainerConfig :=
  Config r.

Definition GetMetadata (c : option ContainerConfig) : option ContainerMetadata :=
  match c with Some c => Metadata c | None => None end.

Definition GetName (m : option ContainerMetadata) : string :=
  match m with Some m => Name m | None => "" end.

Definition GetEnvs (c : option ContainerConfig) : list KeyValue :=
  match c with Some c => Envs c | None => [] end.

(** ** Go's [strconv.Atoi] with a 64-bit [int] *)

Module strconv.

(** [int] has 64 bits on the platforms the shim runs on; the bound 19
    of the fast path of [Atoi] below is the one for that size. *)
Definition intSize : Z := 64.
Definition maxUint64 : Z := 2 ^ 64 - 1.

Definition byteOf (c : ascii) : Z := Z.of_N (N_of_ascii c).

(** Byte subtraction [ch -= '0'] wraps modulo 256. *)
Definition subZero (c : ascii) : Z := (byteOf c - 48) mod 256.

Definition bytes (s : string) : list ascii := list_ascii_of_string s.

(** The digit loop of [ParseUint] for base 10 and bit size 64. Every
    byte that is not a decimal digit is a syntax error (a letter is a
    digit value of at least 10, the base; the underscore is accepted
    only for base 0). The checks are made byte by byte, so an overflow
    met before a bad byte is reported as a range error. *)
Fixpoint parseUintLoop (cs : list ascii) (n : Z) : strconvErr + Z :=
  match cs with
  | [] => inr n
  | c :: cs' =>
      if (48 <=? byteOf c) && (byteOf c <=? 57) then
        let d := byteOf c - 48 in
        let cutoff := maxUint64 / 10 + 1 in
        if cutoff <=? n then inl ErrRange
        else
          let n := n * 10 in
          let n1 := (n + d) mod 2 ^ 64 in
          if (n1 <? n) || (maxUint64 <? n1) then inl ErrRange
          else parseUintLoop cs' n1
      else inl ErrSyntax
  end.

Definition ParseUint (s : string) : strconvErr + Z :=
  match bytes s with
  | [] => inl ErrSyntax
  | cs => parseUintLoop cs 0
  end.

(** [ParseInt(s, 10, 0)]: an optional sign, then [ParseUint]; the
    magnitude must fit a 64-bit signed integer. *)
Definition ParseInt (s : string) : strconvErr + Z :=
  match s with
  | EmptyString => inl ErrSyntax
  | String c rest =>
      let '(neg, s') :=
        if Ascii.eqb c "+" then (false, rest)
        else if Ascii.eqb c "-" then (true, rest)
        else (false, s) in
      let cutoff := 2 ^ 63 in
      match ParseUint s' with
      | inl ErrSyntax => inl ErrSyntax
      | inl ErrRange => inl ErrRange
      | inr un =>
          if negb neg && (cutoff <=? un) then inl ErrRange
          else if neg && (cutoff <? un) then inl ErrRange
          else inr (if neg then - un else un)
      end
  end.

(** The fast path of [Atoi]: fewer than 19 bytes, so the value fits. *)
Fixpoint atoiFastLoop (cs : list ascii) (n : Z) : strconvErr + Z :=
  match cs with
  | [] => inr n
  | c :: cs' =>
      let ch := subZero c in
      if 9 <? ch then inl ErrSyntax
      else atoiFastLoop cs' (n * 10 + ch)
  end.

Definition atoiFast (s : string) : strconvErr + Z :=
  match s with
  | EmptyString => inl ErrSyntax
  | String c rest =>
      let signed := Ascii.eqb c "-" || Ascii.eqb c "+" in
      let digits := if signed then rest else s in
      if signed && (Z.of_nat (String.length digits) <? 1) then inl ErrSyntax
      else
        match atoiFastLoop (bytes digits) 0 with
        | inl e => inl e
        | inr n => inr (if Ascii.eqb c "-" then - n else n)
        end
  end.

Definition Atoi (s : string) : result Z :=
  let sLen := Z.of_nat (String.length s) in
  let r :=
    if (0 <? sLen) && (sLen <? 19) then atoiFast s else ParseInt s in
  match r with
  | inr n => Ok n
  | inl e => Err (NumError "Atoi" s e)
  end.

End strconv.

(** The conversion [uint32(x)] of a Go [int]: reduction modulo [2^32]. *)
Definition uint32 (x : Z) : Z := x mod 2 ^ 32.

(** ** Launch-parameter readers *)

Fixpoint getGuestImage_range (envs : list KeyValue) : result string :=
  match envs with
  | [] =>
      Err (ErrorString
             "failed to provide non empty guest image in user container config")
  | kv :: envs' =>
      if String.eqb (GetKey kv) guestImageEnv then Ok (GetValue kv)
      else getGuestImage_range envs'
  end.

Definition getGuestImage (config : option ContainerConfig) : result string :=
  getGuestImage_range (GetEnvs config).

Fixpoint getRevisionId_range (envs : list KeyValue) : result string :=
  match envs with
  | [] =>
      Err (ErrorString
             "failed to provide non empty guest image in user container config")
  | kv :: envs' =>
      if String.eqb (GetKey kv) revisionEnv then Ok (GetValue kv)
      else getRevisionId_range envs'
  end.

Definition getRevisionId (config : option ContainerConfig) : result string :=
  getRevisionId_range (GetEnvs config).

Fixpoint getMemorySize_range (envs : list KeyValue) : result Z :=
  match envs with
  | [] => Ok (uint32 defaultMemorySizeMib)
  | kv :: envs' =>
      if String.eqb (GetKey kv) guestMemorySizeMibEnv then
        match strconv.Atoi (GetValue kv) with
        | Ok memSize => Ok (uint32 memSize)
        | Err err => Err err
        end
      else getMemorySize_range envs'
  end.

Definition getMemorySize (config : option ContainerConfig) : result Z :=
  getMemorySize_range (GetEnvs config).

Fixpoint getvCPUCount_range (envs : list KeyValue) : result Z :=
  match envs with
  | [] => Ok (uint32 defaultvCPUCount)
  | kv :: envs' =>
      if String.eqb (GetKey kv) guestvCPUCount then
        match strconv.Atoi (GetValue kv) with
        | Ok vCPUCount => Ok (uint32 vCPUCount)
        | Err err => Err err
        end
      else getvCPUCount_range envs'
  end.

Definition getvCPUCount (config : option ContainerConfig) : result Z :=
  getvCPUCount_range (GetEnvs config).

(** ** The service state and its collaborators *)

(** Modelled from the spec: [VMConfig] is declared outside
    [container_create.go]; it is the record of a booted VM's guest
    address and guest port, with the two fields used here. *)
Record VMConfig : Type := { guestIP : string; guestPort : string }.

(** Modelled from the spec: the supervisor's boot response is declared
    outside [container_create.go]; the guest address is the field read
    here. *)
Record StartVMResponse : Type := { GuestIP : string }.

(** Modelled from the spec: the VM instance handle [funcInstance] is
    declared outside [container_create.go]; it carries the supervisor's
    boot response (with the guest address) and an internal revision
    identifier. *)
Record funcInstance : Type :=
  { revisionId : string; startVMResponse : StartVMResponse }.

(** Modelled from the spec: the [Service] struct and its coordinator are
    declared outside [container_create.go]; the Pod VM Config Store maps
    pod-sandbox identifiers to [VMConfig] and the Active VM Registry maps
    container identifiers to VM instances. *)
Record Service : Type :=
  { podVMConfigs : gmap string VMConfig;
    activeInstances : gmap string funcInstance }.

(** The two external collaborators, as test doubles: what the stock
    runtime answers to a creation request and what the VM supervisor
    answers to a boot request. A stock answer without error carries a
    response, a boot answer without error carries an instance with its
    boot response: the workload path reads through these pointers
    without a nil check, and an answer with neither value nor error is
    not among the answers considered here. *)
Record Backend : Type :=
  { stockRuntimeClient_CreateContainer :
      CreateContainerRequest -> result CreateContainerResponse;
    coordinator_startVM :
      string -> string -> Z -> Z -> result funcInstance }.

(** What a creation request does that can be seen from outside: calls to
    the collaborators, accesses to the two stores, and the two halves of
    the goroutine protocol of the workload path. *)
Inductive event : Type :=
| EvGoStockCreate (r : CreateContainerRequest)
| EvWaitStockDone
| EvStockCreate (r : CreateContainerRequest)
| EvStartVM (guestImage revision : string) (memSizeMib vCPUCount : Z)
| EvInsertPodVMConfig (podID : string) (vmConfig : VMConfig)
| EvGetPodVMConfig (podID : string)
| EvRemovePodVMConfig (podID : string)
| EvInsertActive (containerID : string) (fi : funcInstance).

(** A creation request is issued to the stock runtime, either from the
    goroutine or synchronously. *)
Definition isStockCall (e : event) : bool :=
  match e with
  | EvGoStockCreate _ | EvStockCreate _ => true
  | _ => false
  end.

Definition isStartVM (e : event) : bool :=
  match e with EvStartVM _ _ _ _ => true | _ => false end.

Definition isWaitStockDone (e : event) : bool :=
  match e with EvWaitStockDone => true | _ => false end.

Definition isInsertActive (e : event) : bool :=
  match e with EvInsertActive _ _ => true | _ => false end.

Definition isInsertPodVMConfig (e : event) : bool :=
  match e with EvInsertPodVMConfig _ _ => true | _ => false end.

(** ** A monad for the methods of [Service]

    A method runs from a service state and ends by returning a value,
    by returning an error, or by a run-time panic; it leaves a service
    state and the list of events it performed, oldest first. *)

Inductive outcome (A : Type) : Type :=
| Return (a : A)
| Fail (e : error)
| Panic.
Arguments Return {A} a.
Arguments Fail {A} e.
Arguments Panic {A}.

Definition M (A : Type) : Type := Service -> outcome A * Service * list event.

Definition ret {A} (a : A) : M A := fun s => (Return a, s, []).

Definition fail {A} (e : error) : M A := fun s => (Fail e, s, []).

Definition panic {A} : M A := fun s => (Panic, s, []).

Definition bind {A B} (m : M A) (f : A -> M B) : M B :=
  fun s =>
    match m s with
    | (Return a, s1, t1) =>
        let '(o, s2, t2) := f a s1 in (o, s2, t1 ++ t2)
    | (Fail e, s1, t1) => (Fail e, s1, t1)
    | (Panic, s1, t1) => (Panic, s1, t1)
    end.

Notation "x <- m ;; k" := (bind m (fun x => k))
  (at level 100, m at next level, right associativity).
Notation "m ;;; k" := (bind m (fun _ => k))
  (at level 100, right associativity).

Definition emit (e : event) : M unit := fun s => (Return tt, s, [e]).

(** [v, err := f(); if err != nil { return nil, err }] *)
Definition try {A} (r : result A) : M A :=
  match r with Ok a => ret a | Err e => fail e end.

(** *** The stores *)

(** Modelled from the spec: [insertPodVMConfig] is defined outside
    [container_create.go]; the store's put inserts or overwrites the entry of the key. *)
Definition insertPodVMConfig (podID : string) (vmConfig : VMConfig) : M unit :=
  fun s =>
    (Return tt,
     {| podVMConfigs := <[podID := vmConfig]> (podVMConfigs s);
        activeInstances := activeInstances s |},
     [EvInsertPodVMConfig podID vmConfig]).

(** Modelled from the spec: [getPodVMConfig] is defined outside
    [container_create.go]; the store's get is a non-destructive read, and an absent entry
    is the error that no VM configuration is available. *)
Definition getPodVMConfig (podID : string) : M VMConfig :=
  fun s =>
    (match podVMConfigs s !! podID with
     | Some vmConfig => Return vmConfig
     | None => Fail (ErrNoVMConfig podID)
     end, s, [EvGetPodVMConfig podID]).

(** Modelled from the spec: [removePodVMConfig] is defined outside
    [container_create.go]; the store's remove is an idempotent delete. *)
Definition removePodVMConfig (podID : string) : M unit :=
  fun s =>
    (Return tt,
     {| podVMConfigs := delete podID (podVMConfigs s);
        activeInstances := activeInstances s |},
     [EvRemovePodVMConfig podID]).

(** Modelled from the spec: [insertActive] is defined outside
    [container_create.go]; the registry's insert fails if the container identifier is already
    present and adds the entry otherwise. *)
Definition insertActive (containerID : string) (fi : funcInstance) : M unit :=
  fun s =>
    match activeInstances s !! containerID with
    | Some _ =>
        (Fail (ErrAlreadyActive containerID), s,
         [EvInsertActive containerID fi])
    | None =>
        (Return tt,
         {| podVMConfigs := podVMConfigs s;
            activeInstances := <[containerID := fi]> (activeInstances s) |},
         [EvInsertActive containerID fi])
    end.

(** *** The collaborators *)

(** [s.stockRuntimeClient.CreateContainer(ctx, r)], called in line. *)
Definition stockCreateContainer (B : Backend) (r : CreateContainerRequest)
  : M CreateContainerResponse :=
  emit (EvStockCreate r) ;;; try (stockRuntimeClient_CreateContainer B r).

(** [s.coordinator.startVM(context.Background(), ...)]. *)
Definition startVM (B : Backend) (guestImage revision : string)
  (memSizeMib vCPUCount : Z) : M funcInstance :=
  emit (EvStartVM guestImage revision memSizeMib vCPUCount) ;;;
  try (coordinator_startVM B guestImage revision memSizeMib vCPUCount).

(** The goroutine of the workload path. It is started with the request
    and writes the stock runtime's answer into [stockResp], [stockErr]
    before it closes [stockDone]; the two variables are read only after
    the channel receive. [stockTask] holds what the goroutine will have
    written by then. *)
Record stockTask : Type :=
  { stockAnswer : result CreateContainerResponse }.

Definition goStockCreate (B : Backend) (r : CreateContainerRequest)
  : M stockTask :=
  emit (EvGoStockCreate r) ;;;
  ret {| stockAnswer := stockRuntimeClient_CreateContainer B r |}.

(** [<-stockDone] *)
Definition waitStockDone (t : stockTask)
  : M (result CreateContainerResponse) :=
  emit EvWaitStockDone ;;; ret (stockAnswer t).

(** ** The creation paths *)

Definition createUserContainer (B : Backend) (r : CreateContainerRequest)
  : M CreateContainerResponse :=
  (* Create placeholder user container *)
  stockDone <- goStockCreate B r ;;
  (* Get config variables *)
  let config := GetConfig r in
  guestImage <- try (getGuestImage config) ;;
  revision <- try (getRevisionId config) ;;
  memSizeMib <- try (getMemorySize config) ;;
  vCPUCount <- try (getvCPUCount config) ;;
  (* Start vm *)
  funcInst <- startVM B guestImage revision memSizeMib vCPUCount ;;
  (* Temporarily store vm config *)
  let vmConfig :=
    {| guestIP := GuestIP (startVMResponse funcInst);
       guestPort := guestPortValue |} in
  insertPodVMConfig (GetPodSandboxId r) vmConfig ;;;
  (* Wait for placeholder user container to be created *)
  stock <- waitStockDone stockDone ;;
  match stock with
  | Err stockErr => fail stockErr
  | Ok stockResp =>
      let containerdID := ContainerId stockResp in
      insertActive containerdID funcInst ;;;
      ret stockResp
  end.

(** [r.Config.Envs = append(r.Config.Envs, ...)] writes through the
    [Config] pointer of the request: a nil pointer dereference if the
    request has no configuration. *)
Definition appendEnvs (r : CreateContainerRequest) (kvs : list KeyValue)
  : M CreateContainerRequest :=
  match Config r with
  | None => panic
  | Some c =>
      ret {| PodSandboxId := PodSandboxId r;
             Config := Some {| Metadata := Metadata c;
                               Envs := Envs c ++ kvs |} |}
  end.

Definition createQueueProxy (B : Backend) (r : CreateContainerRequest)
  : M CreateContainerResponse :=
  vmConfig <- getPodVMConfig (GetPodSandboxId r) ;;
  removePodVMConfig (GetPodSandboxId r) ;;;
  let guestIPKeyVal := {| Key := guestIPEnv; Value := guestIP vmConfig |} in
  let guestPortKeyVal :=
    {| Key := guestPortEnv; Value := guestPort vmConfig |} in
  r <- appendEnvs r [guestIPKeyVal; guestPortKeyVal] ;;
  resp <- stockCreateContainer B r ;;
  ret resp.

Definition CreateContainer (B : Backend) (r : CreateContainerRequest)
  : M CreateContainerResponse :=
  let config := GetConfig r in
  let containerName := GetName (GetMetadata config) in
  if String.eqb containerName userContainerName then createUserContainer B r
  else if String.eqb containerName queueProxyName then createQueueProxy B r
  else (* Containers relevant for control plane *)
    stockCreateContainer B r.

(** ** Vocabulary of the properties *)

(** The container name the dispatch looks at. *)
Definition containerName (r : CreateContainerRequest) : string :=
  GetName (GetMetadata (GetConfig r)).

(** The value of the first environment entry with the given key. *)
Fixpoint lookupEnv (key : string) (envs : list KeyValue) : option string :=
  match envs with
  | [] => None
  | kv :: envs' =>
      if String.eqb (GetKey kv) key then Some (GetValue kv)
      else lookupEnv key envs'
  end.

(** The launch parameters of the workload path, read in the order in
    which [createUserContainer] reads them; the first failing reader
    decides the error. *)
Record LaunchParameters : Type :=
  { lpGuestImage : string; lpRevision : string;
    lpMemSizeMib : Z; lpvCPUCount : Z }.

Definition extractLaunchParameters (config : option ContainerConfig)
  : result LaunchParameters :=
  match getGuestImage config with
  | Err e => Err e
  | Ok guestImage =>
      match getRevisionId config with
      | Err e => Err e
      | Ok revision =>
          match getMemorySize config with
          | Err e => Err e
          | Ok memSizeMib =>
              match getvCPUCount config with
              | Err e => Err e
              | Ok vCPUCount =>
                  Ok {| lpGuestImage := guestImage; lpRevision := revision;
                        lpMemSizeMib := memSizeMib; lpvCPUCount := vCPUCount |}
              end
          end
      end
  end.

(** The supervisor's answer to a boot with the given parameters, and the
    event of that boot. *)
Definition bootAnswer (B : Backend) (p : LaunchParameters) : result funcInstance :=
  coordinator_startVM B (lpGuestImage p) (lpRevision p)
    (lpMemSizeMib p) (lpvCPUCount p).

Definition EvBoot (p : LaunchParameters) : event :=
  EvStartVM (lpGuestImage p) (lpRevision p) (lpMemSizeMib p) (lpvCPUCount p).

(** The configuration published for a booted instance. *)
Definition vmConfigOf (fi : funcInstance) : VMConfig :=
  {| guestIP := GuestIP (startVMResponse fi); guestPort := guestPortValue |}.

(** The same backend with another stock runtime. *)
Definition withStock (B : Backend)
  (stock : CreateContainerRequest -> result CreateContainerResponse) : Backend :=
  {| stockRuntimeClient_CreateContainer := stock;
     coordinator_startVM := coordinator_startVM B |}.

(** The request the sidecar path forwards: the incoming request with the
    guest address and the guest port appended to its environment. *)
Definition withGuestEnvs (r : CreateContainerRequest) (c : ContainerConfig)
  (vmConfig : VMConfig) : CreateContainerRequest :=
  {| PodSandboxId := PodSandboxId r;
     Config :=
       Some {| Metadata := Metadata c;
               Envs := Envs c ++ [ {| Key := guestIPEnv; Value := guestIP vmConfig |};
                                   {| Key := guestPortEnv; Value := guestPort vmConfig |} ] |} |}.

Definition setPodVMConfigs (s : Service) (m : gmap string VMConfig) : Service :=
  {| podVMConfigs := m; activeInstances := activeInstances s |}.

Definition setActiveInstances (s : Service) (m : gmap string funcInstance) : Service :=
  {| podVMConfigs := podVMConfigs s; activeInstances := m |}.

(** *** Decimal numerals *)

Definition isDecimalDigit (c : ascii) : bool :=
  (48 <=? strconv.byteOf c) && (strconv.byteOf c <=? 57).

(** The number written by a list of decimal digits, after [acc]. *)
Fixpoint decimalValue (cs : list ascii) (acc : Z) : option Z :=
  match cs with
  | [] => Some acc
  | c :: cs' =>
      if isDecimalDigit c then decimalValue cs' (acc * 10 + (strconv.byteOf c - 48))
      else None
  end.

(** The specification's reading of a numeric value: an unsigned integer
    is a non-empty string of decimal digits, and it is read exactly. *)
Definition spec_parseUnsigned (s : string) : option Z :=
  match strconv.bytes s with
  | [] => None
  | cs => decimalValue cs 0
  end.

(** An optional sign followed by a non-empty string of decimal digits. *)
Definition isSignedDecimal (s : string) : bool :=
  match s with
  | EmptyString => false
  | String c rest =>
      let digits :=
        if Ascii.eqb c "+" || Ascii.eqb c "-" then rest else s in
      match strconv.bytes digits with
      | [] => false
      | cs => forallb isDecimalDigit cs
      end
  end.


(** The reading under which a failed extraction leaves both
    collaborators untouched: the request fails with the extraction error
    and its events hold neither a boot nor a creation request issued to
    the stock runtime. *)
Definition extractionFailureCallsNobody (B : Backend)
  (r : CreateContainerRequest) (s : Service) : Prop :=
  forall e, extractLaunchParameters (GetConfig r) = Err e ->
    exists s' t,
      CreateContainer B r s = (Fail e, s', t) /\
      existsb isStartVM t = false /\
      existsb isStockCall t = false.

(** *** Sample inputs *)

Definition kv (k v : string) : KeyValue := {| Key := k; Value := v |}.

Definition mkRequest (pod name : string) (envs : list KeyValue)
  : CreateContainerRequest :=
  {| PodSandboxId := pod;
     Config := Some {| Metadata := Some {| Name := name |}; Envs := envs |} |}.

Definition sampleInstance : funcInstance :=
  {| revisionId := "rev-7"; startVMResponse := {| GuestIP := "172.16.0.2" |} |}.

Definition sampleResponse : CreateContainerResponse := {| ContainerId := "c-1" |}.

Definition goodBackend : Backend :=
  {| stockRuntimeClient_CreateContainer := fun _ => Ok sampleResponse;
     coordinator_startVM := fun _ _ _ _ => Ok sampleInstance |}.

Definition bootFailsBackend : Backend :=
  {| stockRuntimeClient_CreateContainer := fun _ => Ok sampleResponse;
     coordinator_startVM := fun _ _ _ _ => Err (ErrCollaborator "boot failed") |}.

Definition stockFailsBackend : Backend :=
  {| stockRuntimeClient_CreateContainer :=
       fun _ => Err (ErrCollaborator "stock runtime failed");
     coordinator_startVM := fun _ _ _ _ => Ok sampleInstance |}.

Definition emptyService : Service :=
  {| podVMConfigs := ∅; activeInstances := ∅ |}.

Definition workloadRequest : CreateContainerRequest :=
  mkRequest "pod-1" userContainerName
    [kv guestImageEnv "fn:v1"; kv revisionEnv "rev-7"].

Definition sampleParameters : LaunchParameters :=
  {| lpGuestImage := "fn:v1"; lpRevision := "rev-7";
     lpMemSizeMib := 256; lpvCPUCount := 1 |}.

Definition noEnvRequest : CreateContainerRequest :=
  mkRequest "pod-1" userContainerName [].

Definition sidecarRequest : CreateContainerRequest :=
  mkRequest "pod-1" queueProxyName [kv "SERVING_NAMESPACE" "default"].

Definition missingImageError : error :=
  ErrorString "failed to provide non empty guest image in user container config".

(** *** Further vocabulary *)

(** The integer written by an optionally signed decimal numeral. *)
Definition signedDecimalValue (s : string) : option Z :=
  match s with
  | EmptyString => None
  | String c rest =>
      if Ascii.eqb c "+" then spec_parseUnsigned rest
      else if Ascii.eqb c "-" then option_map Z.opp (spec_parseUnsigned rest)
      else spec_parseUnsigned s
  end.

(** The values of a 64-bit Go [int]. *)
Definition inInt64 (n : Z) : bool := (- 2 ^ 63 <=? n) && (n <? 2 ^ 63).

(** How often an event of a kind occurs. *)
Definition countEv (p : event -> bool) (t : list event) : nat :=
  length (List.filter p t).

(** Creation requests served one after the other, each with the
    collaborators as they answer at that time. *)
Fixpoint serve (reqs : list (Backend * CreateContainerRequest)) (s : Service)
  : Service :=
  match reqs with
  | [] => s
  | (B, r) :: reqs' =>
      let '(_, s', _) := CreateContainer B r s in serve reqs' s'
  end.

(** The pods of the workload requests of a sequence. *)
Fixpoint workloadPods (reqs : list (Backend * CreateContainerRequest))
  : gset string :=
  match reqs with
  | [] => ∅
  | (_, r) :: reqs' =>
      if String.eqb (containerName r) userContainerName
      then {[ GetPodSandboxId r ]} ∪ workloadPods reqs'
      else workloadPods reqs'
  end.

(** *** Further sample inputs *)

Definition controlPlaneRequest : CreateContainerRequest :=
  mkRequest "pod-1" "istio-proxy" [kv "LOG_LEVEL" "info"].

Definition secondInstance : funcInstance :=
  {| revisionId := "rev-7"; startVMResponse := {| GuestIP := "172.16.0.3" |} |}.

Definition secondBackend : Backend :=
  {| stockRuntimeClient_CreateContainer := fun _ => Ok sampleResponse;
     coordinator_startVM := fun _ _ _ _ => Ok secondInstance |}.

(** * Properties *)

(** ** The readers, in terms of the first entry with the key *)

Lemma lookupEnv_None_iff key envs :
  lookupEnv key envs = None <-> Forall (fun e => GetKey e <> key) envs.
Proof.
  induction envs as [|e envs IH]; simpl.
  - split; [constructor | reflexivity].
  - destruct (String.eqb_spec (GetKey e) key) as [Heq|Hne].
    + split; [discriminate |].
      intros H. inversion H; subst. congruence.
    + rewrite IH. split.
      * intros H. constructor; assumption.
      * intros H. inversion H; assumption.
Qed.

Lemma getGuestImage_lookup config :
  getGuestImage config =
  match lookupEnv guestImageEnv (GetEnvs config) with
  | Some v => Ok v
  | None => Err missingImageError
  end.
Proof.
  unfold getGuestImage.
  induction (GetEnvs config) as [|e envs IH]; simpl; [reflexivity |].
  destruct (String.eqb (GetKey e) guestImageEnv); [reflexivity | exact IH].
Qed.

Lemma getRevisionId_lookup config :
  getRevisionId config =
  match lookupEnv revisionEnv (GetEnvs config) with
  | Some v => Ok v
  | None => Err missingImageError
  end.
Proof.
  unfold getRevisionId.
  induction (GetEnvs config) as [|e envs IH]; simpl; [reflexivity |].
  destruct (String.eqb (GetKey e) revisionEnv); [reflexivity | exact IH].
Qed.

Lemma getMemorySize_lookup config :
  getMemorySize config =
  match lookupEnv guestMemorySizeMibEnv (GetEnvs config) with
  | Some v =>
      match strconv.Atoi v with
      | Ok n => Ok (uint32 n)
      | Err e => Err e
      end
  | None => Ok 256
  end.
Proof.
  unfold getMemorySize.
  induction (GetEnvs config) as [|e envs IH]; simpl; [reflexivity |].
  destruct (String.eqb (GetKey e) guestMemorySizeMibEnv); [reflexivity | exact IH].
Qed.

Lemma getvCPUCount_lookup config :
  getvCPUCount config =
  match lookupEnv guestvCPUCount (GetEnvs config) with
  | Some v =>
      match strconv.Atoi v with
      | Ok n => Ok (uint32 n)
      | Err e => Err e
      end
  | None => Ok 1
  end.
Proof.
  unfold getvCPUCount.
  induction (GetEnvs config) as [|e envs IH]; simpl; [reflexivity |].
  destruct (String.eqb (GetKey e) guestvCPUCount); [reflexivity | exact IH].
Qed.

(** ** [strconv.Atoi] on decimal numerals *)


Lemma isDecimalDigit_range c :
  isDecimalDigit c = true <-> 48 <= strconv.byteOf c <= 57.
Proof. unfold isDecimalDigit. rewrite andb_true_iff, !Z.leb_le. tauto. Qed.


Lemma decimalValue_ge cs : forall acc v,
  0 <= acc -> decimalValue cs acc = Some v -> acc <= v.
Proof.
  induction cs as [|c cs IH]; simpl; intros acc v Hacc H.
  - injection H as <-. lia.
  - destruct (isDecimalDigit c) eqn:Hd; [| discriminate].
    apply isDecimalDigit_range in Hd.
    apply IH in H; lia.
Qed.

Lemma atoiFastLoop_decimal cs : forall acc v,
  decimalValue cs acc = Some v -> strconv.atoiFastLoop cs acc = inr v.
Proof.
  induction cs as [|c cs IH]; simpl; intros acc v H.
  - congruence.
  - destruct (isDecimalDigit c) eqn:Hd; [| discriminate].
    apply isDecimalDigit_range in Hd.
    unfold strconv.subZero.
    rewrite Z.mod_small by lia.
    destruct (Z.ltb_spec 9 (strconv.byteOf c - 48)); [lia |].
    apply IH, H.
Qed.


(** A plain decimal numeral below [2^63] is read exactly. *)
Lemma bytes_String c s : strconv.bytes (String c s) = c :: strconv.bytes s.
Proof. reflexivity. Qed.





(** ** The three creation paths, case by case *)

Lemma CreateContainer_workload B r :
  containerName r = userContainerName ->
  CreateContainer B r = createUserContainer B r.
Proof.
  unfold CreateContainer, containerName. intros ->. reflexivity.
Qed.

Lemma CreateContainer_sidecar B r :
  containerName r = queueProxyName ->
  CreateContainer B r = createQueueProxy B r.
Proof.
  unfold CreateContainer, containerName. intros ->. reflexivity.
Qed.

Lemma sidecar_has_config r :
  containerName r = queueProxyName -> exists c, Config r = Some c.
Proof.
  unfold containerName, GetConfig. destruct (Config r) as [c|]; [eauto |].
  discriminate.
Qed.

Lemma createUserContainer_run B r s :
  createUserContainer B r s =
  match extractLaunchParameters (GetConfig r) with
  | Err e => (Fail e, s, [EvGoStockCreate r])
  | Ok p =>
      match bootAnswer B p with
      | Err e => (Fail e, s, [EvGoStockCreate r; EvBoot p])
      | Ok fi =>
          let pod := GetPodSandboxId r in
          let s1 := setPodVMConfigs s (<[pod := vmConfigOf fi]> (podVMConfigs s)) in
          let t1 := [EvGoStockCreate r; EvBoot p;
                     EvInsertPodVMConfig pod (vmConfigOf fi); EvWaitStockDone] in
          match stockRuntimeClient_CreateContainer B r with
          | Err e => (Fail e, s1, t1)
          | Ok resp =>
              let id := ContainerId resp in
              match activeInstances s !! id with
              | Some _ => (Fail (ErrAlreadyActive id), s1, t1 ++ [EvInsertActive id fi])
              | None =>
                  (Return resp,
                   setActiveInstances s1 (<[id := fi]> (activeInstances s)),
                   t1 ++ [EvInsertActive id fi])
              end
          end
      end
  end.
Proof.
  unfold extractLaunchParameters, bootAnswer, EvBoot.
  cbv beta iota zeta delta
    [createUserContainer bind goStockCreate emit ret try fail startVM
     insertPodVMConfig waitStockDone insertActive].
  destruct (getGuestImage (GetConfig r)) as [guestImage|e]; [| reflexivity].
  destruct (getRevisionId (GetConfig r)) as [revision|e]; [| reflexivity].
  destruct (getMemorySize (GetConfig r)) as [memSizeMib|e]; [| reflexivity].
  destruct (getvCPUCount (GetConfig r)) as [vCPUCount|e]; [| reflexivity].
  cbn [lpGuestImage lpRevision lpMemSizeMib lpvCPUCount].
  destruct (coordinator_startVM B guestImage revision memSizeMib vCPUCount)
    as [funcInst|e]; [| reflexivity].
  cbn [stockAnswer activeInstances podVMConfigs].
  destruct (stockRuntimeClient_CreateContainer B r) as [stockResp|stockErr];
    [| reflexivity].
  cbv beta iota zeta. cbn [activeInstances].
  destruct (activeInstances s !! ContainerId stockResp); reflexivity.
Qed.

Lemma createQueueProxy_run B r s :
  createQueueProxy B r s =
  let pod := GetPodSandboxId r in
  match podVMConfigs s !! pod with
  | None => (Fail (ErrNoVMConfig pod), s, [EvGetPodVMConfig pod])
  | Some vmConfig =>
      let s1 := setPodVMConfigs s (delete pod (podVMConfigs s)) in
      match Config r with
      | None => (Panic, s1, [EvGetPodVMConfig pod; EvRemovePodVMConfig pod])
      | Some c =>
          let r' := withGuestEnvs r c vmConfig in
          (match stockRuntimeClient_CreateContainer B r' with
           | Ok resp => Return resp
           | Err e => Fail e
           end, s1,
           [EvGetPodVMConfig pod; EvRemovePodVMConfig pod; EvStockCreate r'])
      end
  end.
Proof.
  cbv beta iota zeta delta
    [createQueueProxy bind getPodVMConfig removePodVMConfig appendEnvs
     stockCreateContainer emit ret try fail panic].
  destruct (podVMConfigs s !! GetPodSandboxId r) as [vmConfig|]; [| reflexivity].
  destruct (Config r) as [c|]; [| reflexivity].
  cbv beta iota zeta.
  fold (withGuestEnvs r c vmConfig).
  destruct (stockRuntimeClient_CreateContainer B (withGuestEnvs r c vmConfig));
    reflexivity.
Qed.

(** Extraction fails exactly for a missing image reference, a missing
    revision identifier, or a memory size or vCPU count that [Atoi]
    refuses. *)
Lemma extraction_fails_iff config :
  isErr (extractLaunchParameters config) = true <->
  lookupEnv guestImageEnv (GetEnvs config) = None \/
  lookupEnv revisionEnv (GetEnvs config) = None \/
  (exists v, lookupEnv guestMemorySizeMibEnv (GetEnvs config) = Some v /\
             isErr (strconv.Atoi v) = true) \/
  (exists v, lookupEnv guestvCPUCount (GetEnvs config) = Some v /\
             isErr (strconv.Atoi v) = true).
Proof.
  unfold extractLaunchParameters.
  rewrite getGuestImage_lookup, getRevisionId_lookup,
    getMemorySize_lookup, getvCPUCount_lookup.
  destruct (lookupEnv guestImageEnv _) as [img|]; [| simpl; tauto].
  destruct (lookupEnv revisionEnv _) as [rev|]; [| simpl; tauto].
  destruct (lookupEnv guestMemorySizeMibEnv _) as [m|].
  - destruct (strconv.Atoi m) as [n|e] eqn:Hm.
    + destruct (lookupEnv guestvCPUCount _) as [c|].
      * destruct (strconv.Atoi c) as [k|e] eqn:Hc; simpl.
        -- split; [discriminate |].
           intros [H|[H|[(v & H & Hv)|(v & H & Hv)]]]; try discriminate.
           ++ injection H as <-. rewrite Hm in Hv. discriminate.
           ++ injection H as <-. rewrite Hc in Hv. discriminate.
        -- split; [| reflexivity]. intros _. right. right. right.
           exists c. rewrite Hc. auto.
      * simpl. split; [discriminate |].
        intros [H|[H|[(v & H & Hv)|(v & H & Hv)]]]; try discriminate.
        injection H as <-. rewrite Hm in Hv. discriminate.
    + simpl. split; [| reflexivity]. intros _. right. right. left.
      exists m. rewrite Hm. auto.
  - destruct (lookupEnv guestvCPUCount _) as [c|].
    + destruct (strconv.Atoi c) as [k|e] eqn:Hc; simpl.
      * split; [discriminate |].
        intros [H|[H|[(v & H & Hv)|(v & H & Hv)]]]; try discriminate.
        injection H as <-. rewrite Hc in Hv. discriminate.
      * split; [| reflexivity]. intros _. right. right. right.
        exists c. rewrite Hc. auto.
    + simpl. split; [discriminate |].
      intros [H|[H|[(v & H & Hv)|(v & H & Hv)]]]; discriminate.
Qed.

(** ** The workload path *)

(** C1, as stated, does not hold. The workload path starts the
    placeholder creation in a goroutine before it reads any launch
    parameter: a workload request without environment fails with the
    missing-image error, and the creation request has by then been
    issued to the stock runtime. *)
Lemma extraction_failure_reaches_stock_runtime :
  ~ extractionFailureCallsNobody goodBackend noEnvRequest emptyService.
Proof.
  intros H.
  destruct (H missingImageError eq_refl) as (s' & t & Hrun & _ & Hstock).
  rewrite (CreateContainer_workload goodBackend noEnvRequest eq_refl),
    createUserContainer_run in Hrun.
  cbn in Hrun. injection Hrun as _ <-. discriminate Hstock.
Qed.

(** C1, amended. For every workload-creation request whose
    launch-parameter extraction fails, the operation returns the
    extraction error, the service state is unchanged, and the only event
    is the start of the placeholder creation in its goroutine: the VM
    supervisor is not called, nothing is published or registered, and
    the goroutine is not waited for. *)
Theorem extraction_failure_aborts_before_boot B r s e :
  containerName r = userContainerName ->
  extractLaunchParameters (GetConfig r) = Err e ->
  CreateContainer B r s = (Fail e, s, [EvGoStockCreate r]) /\
  existsb isStartVM [EvGoStockCreate r] = false.
Proof.
  intros Hname Hextract.
  rewrite (CreateContainer_workload _ _ Hname), createUserContainer_run, Hextract.
  split; reflexivity.
Qed.

Lemma extraction_failure_aborts_before_boot_witness :
  containerName noEnvRequest = userContainerName /\
  extractLaunchParameters (GetConfig noEnvRequest) = Err missingImageError /\
  CreateContainer goodBackend noEnvRequest emptyService =
    (Fail missingImageError, emptyService, [EvGoStockCreate noEnvRequest]).
Proof.
  split; [reflexivity |]. split; [reflexivity |].
  apply (extraction_failure_aborts_before_boot goodBackend noEnvRequest
           emptyService missingImageError); reflexivity.
Defined.

(** C2. For a workload-creation request, the Active VM Registry is left
    as it was when the VM boot fails (the boot error is returned,
    whatever the placeholder task answers) and when the boot succeeds
    but the placeholder creation fails (the placeholder error is
    returned); the registry changes only when both succeed, and then by
    the insertion of the new pair. *)
Theorem registry_gains_entry_only_on_success B r s o s' t :
  containerName r = userContainerName ->
  CreateContainer B r s = (o, s', t) ->
  (forall p e,
      extractLaunchParameters (GetConfig r) = Ok p ->
      bootAnswer B p = Err e ->
      o = Fail e /\ activeInstances s' = activeInstances s /\
      existsb isInsertActive t = false) /\
  (forall p fi e,
      extractLaunchParameters (GetConfig r) = Ok p ->
      bootAnswer B p = Ok fi ->
      stockRuntimeClient_CreateContainer B r = Err e ->
      o = Fail e /\ activeInstances s' = activeInstances s /\
      existsb isInsertActive t = false) /\
  (activeInstances s' <> activeInstances s ->
   exists p fi resp,
     extractLaunchParameters (GetConfig r) = Ok p /\
     bootAnswer B p = Ok fi /\
     stockRuntimeClient_CreateContainer B r = Ok resp /\
     o = Return resp /\
     activeInstances s' = <[ContainerId resp := fi]> (activeInstances s)).
Proof.
  intros Hname Hrun.
  rewrite (CreateContainer_workload _ _ Hname), createUserContainer_run in Hrun.
  split; [| split].
  - intros p e Hp Hboot. rewrite Hp, Hboot in Hrun.
    injection Hrun as <- <- <-. auto.
  - intros p fi e Hp Hboot Hstock. rewrite Hp, Hboot in Hrun.
    cbv zeta in Hrun. rewrite Hstock in Hrun.
    injection Hrun as <- <- <-. auto.
  - intros Hchanged.
    destruct (extractLaunchParameters (GetConfig r)) as [p|e] eqn:Hp.
    2: { injection Hrun as _ <- _. congruence. }
    destruct (bootAnswer B p) as [fi|e] eqn:Hboot.
    2: { injection Hrun as _ <- _. congruence. }
    cbv zeta in Hrun.
    destruct (stockRuntimeClient_CreateContainer B r) as [resp|e] eqn:Hstock.
    2: { injection Hrun as _ <- _. exfalso. apply Hchanged. reflexivity. }
    destruct (activeInstances s !! ContainerId resp).
    { injection Hrun as _ <- _. exfalso. apply Hchanged. reflexivity. }
    injection Hrun as <- <- _.
    exists p, fi, resp. repeat split; assumption || reflexivity.
Qed.

Lemma registry_gains_entry_only_on_success_witness :
  containerName workloadRequest = userContainerName /\
  CreateContainer stockFailsBackend workloadRequest emptyService =
    (Fail (ErrCollaborator "stock runtime failed"),
     setPodVMConfigs emptyService
       (<["pod-1" := vmConfigOf sampleInstance]> (podVMConfigs emptyService)),
     [EvGoStockCreate workloadRequest; EvBoot sampleParameters;
      EvInsertPodVMConfig "pod-1" (vmConfigOf sampleInstance);
      EvWaitStockDone]) /\
  activeInstances
    (setPodVMConfigs emptyService
       (<["pod-1" := vmConfigOf sampleInstance]> (podVMConfigs emptyService)))
  = activeInstances emptyService.
Proof.
  split; [reflexivity |]. split; [reflexivity |].
  destruct (registry_gains_entry_only_on_success stockFailsBackend
              workloadRequest emptyService _ _ _ eq_refl eq_refl)
    as (_ & Hstock & _).
  destruct (Hstock sampleParameters sampleInstance _ eq_refl eq_refl eq_refl)
    as (_ & Hreg & _).
  exact Hreg.
Defined.

(** C4. In the workload path, a failed VM boot ends the request with the
    boot error right after the boot: the events are the start of the
    goroutine and the boot, with no receive on [stockDone], the service
    state is unchanged, and whatever the stock runtime answers to Task A
    makes no difference to the outcome. *)
Theorem boot_failure_returns_without_waiting B r s p e :
  containerName r = userContainerName ->
  extractLaunchParameters (GetConfig r) = Ok p ->
  bootAnswer B p = Err e ->
  CreateContainer B r s = (Fail e, s, [EvGoStockCreate r; EvBoot p]) /\
  existsb isWaitStockDone [EvGoStockCreate r; EvBoot p] = false /\
  forall stock, CreateContainer (withStock B stock) r s = CreateContainer B r s.
Proof.
  intros Hname Hp Hboot.
  assert (Hrun : forall B', bootAnswer B' p = Err e ->
            CreateContainer B' r s = (Fail e, s, [EvGoStockCreate r; EvBoot p])).
  { intros B' Hboot'.
    rewrite (CreateContainer_workload _ _ Hname), createUserContainer_run.
    rewrite Hp, Hboot'. reflexivity. }
  split; [apply Hrun, Hboot |].
  split; [reflexivity |].
  intros stock. rewrite (Hrun B Hboot). apply Hrun. exact Hboot.
Qed.

Lemma boot_failure_returns_without_waiting_witness :
  containerName workloadRequest = userContainerName /\
  extractLaunchParameters (GetConfig workloadRequest) = Ok sampleParameters /\
  bootAnswer bootFailsBackend sampleParameters = Err (ErrCollaborator "boot failed") /\
  CreateContainer bootFailsBackend workloadRequest emptyService =
    (Fail (ErrCollaborator "boot failed"), emptyService,
     [EvGoStockCreate workloadRequest; EvStartVM "fn:v1" "rev-7" 256 1]).
Proof.
  split; [reflexivity |]. split; [reflexivity |]. split; [reflexivity |].
  apply (boot_failure_returns_without_waiting bootFailsBackend workloadRequest
           emptyService sampleParameters (ErrCollaborator "boot failed"));
    reflexivity.
Defined.

(** C5. In the workload path, once the VM has booted, the record made of
    the instance's guest address and the fixed port 50051 is published
    into the Pod VM Config Store under the request's pod-sandbox
    identifier as the very next step after the boot and before the
    receive on [stockDone]; nothing later in the request touches that
    store, so the entry is there when the request ends. *)
Theorem config_published_before_wait B r s p fi :
  containerName r = userContainerName ->
  extractLaunchParameters (GetConfig r) = Ok p ->
  bootAnswer B p = Ok fi ->
  let pod := GetPodSandboxId r in
  let vmConfig :=
    {| guestIP := GuestIP (startVMResponse fi); guestPort := "50051" |} in
  exists o s' rest,
    CreateContainer B r s =
      (o, s',
       [EvGoStockCreate r; EvBoot p; EvInsertPodVMConfig pod vmConfig;
        EvWaitStockDone] ++ rest) /\
    existsb isInsertPodVMConfig rest = false /\
    existsb isWaitStockDone rest = false /\
    podVMConfigs s' = <[pod := vmConfig]> (podVMConfigs s).
Proof.
  intros Hname Hp Hboot pod vmConfig.
  rewrite (CreateContainer_workload _ _ Hname), createUserContainer_run.
  rewrite Hp, Hboot. cbv zeta.
  change (vmConfigOf fi) with vmConfig. fold pod.
  destruct (stockRuntimeClient_CreateContainer B r) as [resp|e].
  - destruct (activeInstances s !! ContainerId resp);
      eexists _, _, [_]; (split; [reflexivity |]); repeat split.
  - eexists _, _, []; (split; [reflexivity |]); repeat split.
Qed.

Lemma config_published_before_wait_witness :
  containerName workloadRequest = userContainerName /\
  extractLaunchParameters (GetConfig workloadRequest) = Ok sampleParameters /\
  bootAnswer stockFailsBackend sampleParameters = Ok sampleInstance /\
  exists o s' rest,
    CreateContainer stockFailsBackend workloadRequest emptyService =
      (o, s',
       [EvGoStockCreate workloadRequest; EvBoot sampleParameters;
        EvInsertPodVMConfig "pod-1"
          {| guestIP := "172.16.0.2"; guestPort := "50051" |};
        EvWaitStockDone] ++ rest) /\
    existsb isInsertPodVMConfig rest = false /\
    existsb isWaitStockDone rest = false /\
    podVMConfigs s' =
      <["pod-1" := {| guestIP := "172.16.0.2"; guestPort := "50051" |}]>
        (podVMConfigs emptyService).
Proof.
  split; [reflexivity |]. split; [reflexivity |]. split; [reflexivity |].
  apply (config_published_before_wait stockFailsBackend workloadRequest
           emptyService sampleParameters sampleInstance); reflexivity.
Defined.

(** C6. For a workload-creation request whose VM boot and placeholder
    creation both succeed, the pair made of Task A's container
    identifier and Task B's instance is handed to the registry's insert;
    if the identifier is free the pair is in the registry afterwards and
    the operation returns Task A's response as it is, and if the
    identifier is taken the operation returns the insert's duplicate-key
    error and the registry is as before. *)
Theorem both_succeed_registers_and_returns B r s p fi resp :
  containerName r = userContainerName ->
  extractLaunchParameters (GetConfig r) = Ok p ->
  bootAnswer B p = Ok fi ->
  stockRuntimeClient_CreateContainer B r = Ok resp ->
  let id := ContainerId resp in
  exists o s' t,
    CreateContainer B r s = (o, s', t) /\
    In (EvInsertActive id fi) t /\
    (activeInstances s !! id = None ->
       o = Return resp /\
       activeInstances s' = <[id := fi]> (activeInstances s) /\
       activeInstances s' !! id = Some fi) /\
    (forall old, activeInstances s !! id = Some old ->
       o = Fail (ErrAlreadyActive id) /\
       activeInstances s' = activeInstances s).
Proof.
  intros Hname Hp Hboot Hstock id.
  rewrite (CreateContainer_workload _ _ Hname), createUserContainer_run.
  rewrite Hp, Hboot. cbv zeta. rewrite Hstock. fold id.
  destruct (activeInstances s !! id) as [old|] eqn:Hid.
  - eexists _, _, _. split; [reflexivity |].
    split; [cbn; tauto |].
    split; [discriminate |]. intros ? _. split; reflexivity.
  - eexists _, _, _. split; [reflexivity |].
    split; [cbn; tauto |].
    split; [| discriminate]. intros _.
    split; [reflexivity |]. split; [reflexivity |].
    cbn [activeInstances setActiveInstances]. apply lookup_insert_eq.
Qed.

Lemma both_succeed_registers_and_returns_witness :
  containerName workloadRequest = userContainerName /\
  extractLaunchParameters (GetConfig workloadRequest) = Ok sampleParameters /\
  bootAnswer goodBackend sampleParameters = Ok sampleInstance /\
  stockRuntimeClient_CreateContainer goodBackend workloadRequest = Ok sampleResponse /\
  exists o s' t,
    CreateContainer goodBackend workloadRequest emptyService = (o, s', t) /\
    In (EvInsertActive "c-1" sampleInstance) t /\
    (activeInstances emptyService !! "c-1" = None ->
       o = Return sampleResponse /\
       activeInstances s' = <["c-1" := sampleInstance]> (activeInstances emptyService) /\
       activeInstances s' !! "c-1" = Some sampleInstance) /\
    (forall old, activeInstances emptyService !! "c-1" = Some old ->
       o = Fail (ErrAlreadyActive "c-1") /\
       activeInstances s' = activeInstances emptyService).
Proof.
  split; [reflexivity |]. split; [reflexivity |]. split; [reflexivity |].
  split; [reflexivity |].
  apply (both_succeed_registers_and_returns goodBackend workloadRequest
           emptyService sampleParameters sampleInstance sampleResponse);
    reflexivity.
Defined.

(** A second workload request answered with a container identifier that
    is already registered is refused by the registry. *)
Example duplicate_container_id_refused :
  let s := setActiveInstances emptyService {["c-1" := sampleInstance]} in
  exists s' t,
    CreateContainer goodBackend workloadRequest s =
      (Fail (ErrAlreadyActive "c-1"), s', t) /\
    activeInstances s' = activeInstances s.
Proof.
  intros s.
  rewrite (CreateContainer_workload goodBackend workloadRequest eq_refl),
    createUserContainer_run.
  change (extractLaunchParameters (GetConfig workloadRequest))
    with (Ok sampleParameters).
  cbv beta iota zeta delta [bootAnswer goodBackend coordinator_startVM
    stockRuntimeClient_CreateContainer].
  change (activeInstances s) with ({["c-1" := sampleInstance]} : gmap string funcInstance).
  change (ContainerId sampleResponse) with "c-1".
  rewrite lookup_singleton_eq.
  eexists _, _. split; reflexivity.
Qed.

(** ** Numeric launch parameters *)



Lemma spec_parseUnsigned_nonneg s n : spec_parseUnsigned s = Some n -> 0 <= n.
Proof.
  unfold spec_parseUnsigned.
  destruct (strconv.bytes s) as [|c cs]; [discriminate |].
  apply decimalValue_ge. lia.
Qed.

(** ** [strconv.Atoi], completely *)

Lemma length_bytes s : length (strconv.bytes s) = String.length s.
Proof.
  induction s as [|c s IH]; [reflexivity |].
  rewrite bytes_String. simpl. f_equal. exact IH.
Qed.

Lemma decimalValue_lt cs : forall acc v,
  0 <= acc -> decimalValue cs acc = Some v ->
  v < (acc + 1) * 10 ^ Z.of_nat (length cs).
Proof.
  induction cs as [|c cs IH]; intros acc v Hacc H.
  - cbn in H. injection H as <-. cbn. lia.
  - cbn [decimalValue] in H.
    destruct (isDecimalDigit c) eqn:Hd; [| discriminate].
    apply isDecimalDigit_range in Hd.
    apply IH in H; [| lia].
    cbn [length]. rewrite Nat2Z.inj_succ, Z.pow_succ_r by lia.
    assert (Hpow : 0 < 10 ^ Z.of_nat (length cs)) by (apply Z.pow_pos_nonneg; lia).
    nia.
Qed.

Lemma decimalValue_None cs : forall acc,
  decimalValue cs acc = None <-> forallb isDecimalDigit cs = false.
Proof.
  induction cs as [|c cs IH]; intros acc; cbn [decimalValue forallb].
  - split; discriminate.
  - destruct (isDecimalDigit c); cbn [andb]; [apply IH | tauto].
Qed.

Lemma spec_parseUnsigned_None s :
  spec_parseUnsigned s = None <->
  match strconv.bytes s with [] => false | cs => forallb isDecimalDigit cs end = false.
Proof.
  unfold spec_parseUnsigned.
  destruct (strconv.bytes s) as [|c cs]; [tauto |].
  apply decimalValue_None.
Qed.

Lemma signedDecimalValue_None s :
  signedDecimalValue s = None <-> isSignedDecimal s = false.
Proof.
  unfold signedDecimalValue, isSignedDecimal.
  destruct s as [|c rest]; [tauto |].
  destruct (Ascii.eqb c "+"); cbn [orb].
  - apply spec_parseUnsigned_None.
  - destruct (Ascii.eqb c "-").
    + rewrite <- spec_parseUnsigned_None.
      destruct (spec_parseUnsigned rest); cbn; split; congruence.
    + apply spec_parseUnsigned_None.
Qed.

(** The digit loop of [ParseUint] on a numeral: the exact value if it
    fits 64 bits, a range error otherwise. *)
Lemma parseUintLoop_exact cs : forall acc v,
  0 <= acc < 2 ^ 64 -> decimalValue cs acc = Some v ->
  strconv.parseUintLoop cs acc = if v <? 2 ^ 64 then inr v else inl ErrRange.
Proof.
  induction cs as [|c cs IH]; intros acc v Hacc H;
    cbn [decimalValue strconv.parseUintLoop] in *.
  - injection H as <-.
    destruct (Z.ltb_spec acc (2 ^ 64)); [reflexivity | lia].
  - destruct (isDecimalDigit c) eqn:Hd; [| discriminate].
    pose proof Hd as Hr. apply isDecimalDigit_range in Hr.
    unfold isDecimalDigit in Hd. rewrite Hd.
    assert (Hge : acc * 10 + (strconv.byteOf c - 48) <= v).
    { apply (decimalValue_ge cs); [lia | exact H]. }
    change (strconv.maxUint64 / 10 + 1) with 1844674407370955162.
    change strconv.maxUint64 with 18446744073709551615.
    change (2 ^ 64) with 18446744073709551616 in *.
    destruct (Z.leb_spec 1844674407370955162 acc).
    { destruct (Z.ltb_spec v 18446744073709551616); [lia | reflexivity]. }
    destruct (Z.lt_ge_cases (acc * 10 + (strconv.byteOf c - 48)) 18446744073709551616)
      as [Hfit|Hover].
    + rewrite Z.mod_small by lia.
      destruct (Z.ltb_spec (acc * 10 + (strconv.byteOf c - 48)) (acc * 10)); [lia |].
      destruct (Z.ltb_spec 18446744073709551615 (acc * 10 + (strconv.byteOf c - 48)));
        [lia |].
      cbn [orb]. apply IH; [lia | exact H].
    + replace ((acc * 10 + (strconv.byteOf c - 48)) mod 18446744073709551616)
        with (acc * 10 + (strconv.byteOf c - 48) - 18446744073709551616).
      2: { apply Z.mod_unique with (q := 1); lia. }
      destruct (Z.ltb_spec (acc * 10 + (strconv.byteOf c - 48) - 18446744073709551616)
                  (acc * 10)); [| lia].
      cbn [orb].
      destruct (Z.ltb_spec v 18446744073709551616); [lia | reflexivity].
Qed.

Lemma spec_parseUnsigned_bytes s v :
  spec_parseUnsigned s = Some v ->
  decimalValue (strconv.bytes s) 0 = Some v /\ (0 < length (strconv.bytes s))%nat.
Proof.
  unfold spec_parseUnsigned.
  destruct (strconv.bytes s) as [|c cs]; [discriminate |].
  intros H. split; [exact H | cbn; lia].
Qed.

Lemma ParseUint_exact s v :
  spec_parseUnsigned s = Some v ->
  strconv.ParseUint s = if v <? 2 ^ 64 then inr v else inl ErrRange.
Proof.
  intros H. destruct (spec_parseUnsigned_bytes s v H) as [Hv Hlen].
  unfold strconv.ParseUint.
  destruct (strconv.bytes s) as [|c cs] eqn:Hb; [cbn in Hlen; lia |].
  apply parseUintLoop_exact; [| exact Hv].
  change (2 ^ 64) with 18446744073709551616. lia.
Qed.

(** A numeral of fewer than 19 digits is below [10^18]. *)
Lemma short_numeral_small s v :
  spec_parseUnsigned s = Some v -> (String.length s < 19)%nat ->
  0 <= v < 10 ^ 18.
Proof.
  intros H Hlen. destruct (spec_parseUnsigned_bytes s v H) as [Hv _].
  split; [apply (decimalValue_ge (strconv.bytes s) 0 v); [lia | exact Hv] |].
  pose proof (decimalValue_lt (strconv.bytes s) 0 v (Z.le_refl 0) Hv) as Hlt.
  rewrite length_bytes in Hlt.
  assert (10 ^ Z.of_nat (String.length s) <= 10 ^ 18).
  { apply Z.pow_le_mono_r; lia. }
  lia.
Qed.

Lemma spec_parseUnsigned_length s v :
  spec_parseUnsigned s = Some v -> (0 < String.length s)%nat.
Proof.
  intros H. destruct (spec_parseUnsigned_bytes s v H) as [_ Hlen].
  rewrite length_bytes in Hlen. exact Hlen.
Qed.

Lemma atoiFast_exact s n :
  signedDecimalValue s = Some n -> (String.length s < 19)%nat ->
  strconv.atoiFast s = inr n /\ inInt64 n = true.
Proof.
  unfold signedDecimalValue, strconv.atoiFast, inInt64.
  destruct s as [|c rest]; [discriminate |].
  intros H Hlen. cbn [String.length] in Hlen.
  change (2 ^ 63) with 9223372036854775808.
  destruct (Ascii.eqb_spec c "+") as [->|Hplus].
  - cbn [Ascii.eqb Bool.eqb orb andb].
    pose proof (spec_parseUnsigned_length _ _ H) as Hpos.
    destruct (short_numeral_small rest n H ltac:(lia)) as [Hlo Hhi].
    change (10 ^ 18) with 1000000000000000000 in Hhi.
    destruct (spec_parseUnsigned_bytes _ _ H) as [Hv _].
    destruct (Z.ltb_spec (Z.of_nat (String.length rest)) 1); [lia |].
    rewrite (atoiFastLoop_decimal _ _ _ Hv).
    split; [reflexivity |].
    apply andb_true_intro. split; [apply Z.leb_le | apply Z.ltb_lt]; lia.
  - destruct (Ascii.eqb_spec c "-") as [->|Hminus].
    + cbn [orb andb].
      destruct (spec_parseUnsigned rest) as [v|] eqn:Hrest; [| discriminate].
      cbn in H. injection H as <-.
      pose proof (spec_parseUnsigned_length _ _ Hrest) as Hpos.
      destruct (short_numeral_small rest v Hrest ltac:(lia)) as [Hlo Hhi].
      change (10 ^ 18) with 1000000000000000000 in Hhi.
      destruct (spec_parseUnsigned_bytes _ _ Hrest) as [Hv _].
      destruct (Z.ltb_spec (Z.of_nat (String.length rest)) 1); [lia |].
      rewrite (atoiFastLoop_decimal _ _ _ Hv).
      split; [reflexivity |].
      apply andb_true_intro. split; [apply Z.leb_le | apply Z.ltb_lt]; lia.
    + cbn [orb andb].
      destruct (short_numeral_small _ n H ltac:(cbn [String.length]; lia))
        as [Hlo Hhi].
      change (10 ^ 18) with 1000000000000000000 in Hhi.
      destruct (spec_parseUnsigned_bytes _ _ H) as [Hv _].
      rewrite (atoiFastLoop_decimal _ _ _ Hv).
      split; [reflexivity |].
      apply andb_true_intro. split; [apply Z.leb_le | apply Z.ltb_lt]; lia.
Qed.

Lemma inInt64_spec n :
  inInt64 n = true <-> - 2 ^ 63 <= n < 2 ^ 63.
Proof.
  unfold inInt64. rewrite andb_true_iff, Z.leb_le, Z.ltb_lt. tauto.
Qed.

Lemma ParseInt_exact s n :
  signedDecimalValue s = Some n ->
  strconv.ParseInt s = if inInt64 n then inr n else inl ErrRange.
Proof.
  unfold signedDecimalValue, strconv.ParseInt.
  destruct s as [|c rest]; [discriminate |].
  intros H.
  assert (E63 : 2 ^ 63 = 9223372036854775808) by reflexivity.
  assert (E64 : 2 ^ 64 = 18446744073709551616) by reflexivity.
  pose proof (inInt64_spec n) as Hin.
  destruct (Ascii.eqb_spec c "+") as [->|Hplus].
  - rewrite (ParseUint_exact _ _ H).
    pose proof (spec_parseUnsigned_nonneg _ _ H) as Hlo.
    destruct (Z.ltb_spec n (2 ^ 64)).
    + cbn [negb andb].
      destruct (Z.leb_spec (2 ^ 63) n); destruct (inInt64 n);
        try reflexivity; exfalso; intuition lia.
    + destruct (inInt64 n); [exfalso; intuition lia | reflexivity].
  - destruct (Ascii.eqb_spec c "-") as [->|Hminus].
    + destruct (spec_parseUnsigned rest) as [v|] eqn:Hrest; [| discriminate].
      cbn in H. injection H as <-.
      rewrite (ParseUint_exact _ _ Hrest).
      pose proof (spec_parseUnsigned_nonneg _ _ Hrest) as Hlo.
      destruct (Z.ltb_spec v (2 ^ 64)).
      * cbn [negb andb].
        destruct (Z.ltb_spec (2 ^ 63) v); destruct (inInt64 (- v));
          try reflexivity; exfalso; intuition lia.
      * destruct (inInt64 (- v)); [exfalso; intuition lia | reflexivity].
    + rewrite (ParseUint_exact _ _ H).
      pose proof (spec_parseUnsigned_nonneg _ _ H) as Hlo.
      destruct (Z.ltb_spec n (2 ^ 64)).
      * cbn [negb andb].
        destruct (Z.leb_spec (2 ^ 63) n); destruct (inInt64 n);
          try reflexivity; exfalso; intuition lia.
      * destruct (inInt64 n); [exfalso; intuition lia | reflexivity].
Qed.

(** [Atoi] reads an optionally signed decimal numeral exactly when its
    value fits a 64-bit [int], and refuses it with a range error when it
    does not. *)
Lemma Atoi_exact s n :
  signedDecimalValue s = Some n ->
  strconv.Atoi s =
    if inInt64 n then Ok n else Err (NumError "Atoi" s ErrRange).
Proof.
  intros H. unfold strconv.Atoi. cbv zeta.
  destruct ((0 <? Z.of_nat (String.length s)) && (Z.of_nat (String.length s) <? 19))
    eqn:Hfast.
  - apply andb_prop in Hfast as [_ Hlt]. apply Z.ltb_lt in Hlt.
    destruct (atoiFast_exact s n H ltac:(lia)) as [-> ->]. reflexivity.
  - rewrite (ParseInt_exact s n H). destruct (inInt64 n); reflexivity.
Qed.



(** ** The sidecar path *)

(** A sidecar request for a pod without entry in the store stops at the
    lookup. *)
Lemma sidecar_no_config_run B r s :
  containerName r = queueProxyName ->
  podVMConfigs s !! GetPodSandboxId r = None ->
  CreateContainer B r s =
    (Fail (ErrNoVMConfig (GetPodSandboxId r)), s,
     [EvGetPodVMConfig (GetPodSandboxId r)]).
Proof.
  intros Hname Hnone.
  rewrite (CreateContainer_sidecar _ _ Hname), createQueueProxy_run.
  cbv zeta. rewrite Hnone. reflexivity.
Qed.

(** C8. A sidecar-creation request whose pod-sandbox identifier has no
    entry in the Pod VM Config Store fails with the no-VM-configuration
    error; its only event is the one lookup in the store, so the stock
    runtime is not called and nothing is tried again, and the service
    state is unchanged. *)
Theorem sidecar_without_config_fails B r s :
  containerName r = queueProxyName ->
  podVMConfigs s !! GetPodSandboxId r = None ->
  CreateContainer B r s =
    (Fail (ErrNoVMConfig (GetPodSandboxId r)), s,
     [EvGetPodVMConfig (GetPodSandboxId r)]) /\
  existsb isStockCall [EvGetPodVMConfig (GetPodSandboxId r)] = false.
Proof.
  intros Hname Hnone.
  split; [apply sidecar_no_config_run; assumption | reflexivity].
Qed.

Lemma sidecar_without_config_fails_witness :
  containerName sidecarRequest = queueProxyName /\
  podVMConfigs emptyService !! GetPodSandboxId sidecarRequest = None /\
  CreateContainer goodBackend sidecarRequest emptyService =
    (Fail (ErrNoVMConfig "pod-1"), emptyService, [EvGetPodVMConfig "pod-1"]).
Proof.
  split; [reflexivity |]. split; [reflexivity |].
  apply (sidecar_without_config_fails goodBackend sidecarRequest emptyService);
    reflexivity.
Defined.

(** What a sidecar request does when the store has an entry for its pod. *)
Lemma sidecar_with_config_run B r s c vmConfig :
  containerName r = queueProxyName ->
  Config r = Some c ->
  podVMConfigs s !! GetPodSandboxId r = Some vmConfig ->
  let pod := GetPodSandboxId r in
  let r' := withGuestEnvs r c vmConfig in
  CreateContainer B r s =
    (match stockRuntimeClient_CreateContainer B r' with
     | Ok resp => Return resp
     | Err e => Fail e
     end,
     setPodVMConfigs s (delete pod (podVMConfigs s)),
     [EvGetPodVMConfig pod; EvRemovePodVMConfig pod; EvStockCreate r']).
Proof.
  intros Hname Hc Hsome.
  rewrite (CreateContainer_sidecar _ _ Hname), createQueueProxy_run.
  cbv zeta. rewrite Hsome, Hc. reflexivity.
Qed.

(** C9. In the sidecar path the entry is removed from the Pod VM Config
    Store before the stock runtime is called. If the stock runtime then
    fails, its error is returned and the entry stays deleted; any later
    sidecar request for the same pod-sandbox identifier, made from that
    state, fails with the no-VM-configuration error. *)
Theorem sidecar_removal_is_not_rolled_back B r s c vmConfig e :
  containerName r = queueProxyName ->
  Config r = Some c ->
  podVMConfigs s !! GetPodSandboxId r = Some vmConfig ->
  stockRuntimeClient_CreateContainer B (withGuestEnvs r c vmConfig) = Err e ->
  let pod := GetPodSandboxId r in
  exists s',
    CreateContainer B r s =
      (Fail e, s',
       [EvGetPodVMConfig pod; EvRemovePodVMConfig pod;
        EvStockCreate (withGuestEnvs r c vmConfig)]) /\
    podVMConfigs s' = delete pod (podVMConfigs s) /\
    podVMConfigs s' !! pod = None /\
    activeInstances s' = activeInstances s /\
    forall B' q,
      containerName q = queueProxyName ->
      GetPodSandboxId q = pod ->
      CreateContainer B' q s' = (Fail (ErrNoVMConfig pod), s', [EvGetPodVMConfig pod]).
Proof.
  intros Hname Hc Hsome Hstock pod.
  rewrite (sidecar_with_config_run B r s c vmConfig Hname Hc Hsome).
  cbv zeta. rewrite Hstock. fold pod.
  eexists. split; [reflexivity |].
  assert (Hgone : podVMConfigs (setPodVMConfigs s (delete pod (podVMConfigs s))) !! pod = None).
  { cbn [podVMConfigs setPodVMConfigs]. apply lookup_delete_eq. }
  split; [reflexivity |]. split; [exact Hgone |]. split; [reflexivity |].
  intros B' q Hq Hpod.
  rewrite <- Hpod in Hgone |- *.
  apply sidecar_no_config_run; assumption.
Qed.

Lemma sidecar_removal_is_not_rolled_back_witness :
  let s := setPodVMConfigs emptyService {["pod-1" := vmConfigOf sampleInstance]} in
  let c := {| Metadata := Some {| Name := queueProxyName |};
              Envs := [kv "SERVING_NAMESPACE" "default"] |} in
  containerName sidecarRequest = queueProxyName /\
  Config sidecarRequest = Some c /\
  podVMConfigs s !! GetPodSandboxId sidecarRequest = Some (vmConfigOf sampleInstance) /\
  stockRuntimeClient_CreateContainer stockFailsBackend
    (withGuestEnvs sidecarRequest c (vmConfigOf sampleInstance))
  = Err (ErrCollaborator "stock runtime failed") /\
  exists s',
    CreateContainer stockFailsBackend sidecarRequest s =
      (Fail (ErrCollaborator "stock runtime failed"), s',
       [EvGetPodVMConfig "pod-1"; EvRemovePodVMConfig "pod-1";
        EvStockCreate
          (mkRequest "pod-1" queueProxyName
             [kv "SERVING_NAMESPACE" "default";
              kv "GUEST_ADDR" "172.16.0.2"; kv "GUEST_PORT" "50051"])]) /\
    CreateContainer goodBackend sidecarRequest s' =
      (Fail (ErrNoVMConfig "pod-1"), s', [EvGetPodVMConfig "pod-1"]).
Proof.
  intros s c.
  split; [reflexivity |]. split; [reflexivity |].
  split; [reflexivity |]. split; [reflexivity |].
  destruct (sidecar_removal_is_not_rolled_back stockFailsBackend sidecarRequest
              s c (vmConfigOf sampleInstance)
              (ErrCollaborator "stock runtime failed")
              eq_refl eq_refl eq_refl eq_refl)
    as (s' & Hrun & _ & _ & _ & Hagain).
  exists s'. split; [exact Hrun |].
  apply (Hagain goodBackend sidecarRequest); reflexivity.
Defined.

(** ** Workload and sidecar together *)

(** C7. A workload-creation request that succeeds publishes exactly one
    Pod VM Config entry, under its pod-sandbox identifier, holding the
    booted instance's guest address and the guest port. The first
    sidecar-creation request for that pod made from the resulting state
    looks the entry up once, removes it, and forwards its request with
    the two variables [GUEST_ADDR] and [GUEST_PORT] appended to the
    environment; a second sidecar-creation request for the pod then
    fails with the no-VM-configuration error without reaching the stock
    runtime. *)
Theorem publish_consume_round_trip B1 B2 B3 r q1 q2 s0 resp s1 t1 :
  containerName r = userContainerName ->
  containerName q1 = queueProxyName ->
  containerName q2 = queueProxyName ->
  GetPodSandboxId q1 = GetPodSandboxId r ->
  GetPodSandboxId q2 = GetPodSandboxId r ->
  CreateContainer B1 r s0 = (Return resp, s1, t1) ->
  let pod := GetPodSandboxId r in
  exists p fi c1,
    let vmConfig := vmConfigOf fi in
    let q1' := withGuestEnvs q1 c1 vmConfig in
    extractLaunchParameters (GetConfig r) = Ok p /\
    bootAnswer B1 p = Ok fi /\
    List.filter isInsertPodVMConfig t1 = [EvInsertPodVMConfig pod vmConfig] /\
    podVMConfigs s1 !! pod = Some vmConfig /\
    Config q1 = Some c1 /\
    GetEnvs (GetConfig q1') =
      Envs c1 ++ [ {| Key := "GUEST_ADDR"; Value := GuestIP (startVMResponse fi) |};
                   {| Key := "GUEST_PORT"; Value := "50051" |} ] /\
    exists s2,
      CreateContainer B2 q1 s1 =
        (match stockRuntimeClient_CreateContainer B2 q1' with
         | Ok resp' => Return resp'
         | Err e => Fail e
         end, s2,
         [EvGetPodVMConfig pod; EvRemovePodVMConfig pod; EvStockCreate q1']) /\
      podVMConfigs s2 !! pod = None /\
      CreateContainer B3 q2 s2 =
        (Fail (ErrNoVMConfig pod), s2, [EvGetPodVMConfig pod]).
Proof.
  intros Hr Hq1 Hq2 Hpod1 Hpod2 Hrun pod. subst pod.
  rewrite (CreateContainer_workload _ _ Hr), createUserContainer_run in Hrun.
  destruct (extractLaunchParameters (GetConfig r)) as [p|e] eqn:Hp;
    [| discriminate].
  destruct (bootAnswer B1 p) as [fi|e] eqn:Hboot; [| discriminate].
  cbv zeta in Hrun.
  destruct (stockRuntimeClient_CreateContainer B1 r) as [resp'|e];
    [| discriminate].
  destruct (activeInstances s0 !! ContainerId resp'); [discriminate |].
  injection Hrun as _ <- <-.
  destruct (sidecar_has_config q1 Hq1) as [c1 Hc1].
  exists p, fi, c1. cbv zeta.
  split; [reflexivity |]. split; [exact Hboot |]. split; [reflexivity |].
  set (s1 := setActiveInstances _ _).
  assert (Hpub : podVMConfigs s1 !! GetPodSandboxId r = Some (vmConfigOf fi)).
  { unfold s1. cbn [podVMConfigs setActiveInstances setPodVMConfigs].
    apply lookup_insert_eq. }
  split; [exact Hpub |]. split; [exact Hc1 |]. split; [reflexivity |].
  assert (Hgone : forall s pod,
            podVMConfigs (setPodVMConfigs s (delete pod (podVMConfigs s))) !! pod = None).
  { intros s pod. cbn [podVMConfigs setPodVMConfigs]. apply lookup_delete_eq. }
  rewrite <- Hpod1 in Hpub.
  rewrite (sidecar_with_config_run B2 q1 s1 c1 (vmConfigOf fi) Hq1 Hc1 Hpub).
  cbv zeta. rewrite Hpod1.
  eexists. split; [reflexivity |].
  split; [apply Hgone |].
  rewrite <- Hpod2.
  apply sidecar_no_config_run; [exact Hq2 |].
  rewrite Hpod2. apply Hgone.
Qed.

Lemma publish_consume_round_trip_witness :
  exists s1 t1,
    containerName workloadRequest = userContainerName /\
    containerName sidecarRequest = queueProxyName /\
    GetPodSandboxId sidecarRequest = GetPodSandboxId workloadRequest /\
    CreateContainer goodBackend workloadRequest emptyService
      = (Return sampleResponse, s1, t1) /\
    podVMConfigs s1 !! "pod-1" = Some (vmConfigOf sampleInstance) /\
    exists s2,
      CreateContainer goodBackend sidecarRequest s1 =
        (Return sampleResponse, s2,
         [EvGetPodVMConfig "pod-1"; EvRemovePodVMConfig "pod-1";
          EvStockCreate
            (mkRequest "pod-1" queueProxyName
               [kv "SERVING_NAMESPACE" "default";
                kv "GUEST_ADDR" "172.16.0.2"; kv "GUEST_PORT" "50051"])]) /\
      CreateContainer stockFailsBackend sidecarRequest s2 =
        (Fail (ErrNoVMConfig "pod-1"), s2, [EvGetPodVMConfig "pod-1"]).
Proof.
  eexists _, _.
  split; [reflexivity |]. split; [reflexivity |]. split; [reflexivity |].
  split; [reflexivity |].
  destruct (publish_consume_round_trip goodBackend goodBackend stockFailsBackend
              workloadRequest sidecarRequest sidecarRequest emptyService
              sampleResponse _ _ eq_refl eq_refl eq_refl eq_refl eq_refl eq_refl)
    as (p & fi & c1 & Hp & Hboot & _ & Hpub & Hc1 & _ & s2 & Hfirst & _ & Hsecond).
  injection Hboot as <-. injection Hc1 as <-.
  split; [exact Hpub |].
  exists s2. split; [exact Hfirst | exact Hsecond].
Defined.

(** ** Empty values of the required variables *)

(** C10. In the workload path an environment entry for the image
    reference, or for the revision identifier, whose value is the empty
    string is accepted: the reader returns the empty string without
    error, and the request goes on to boot the VM with the parameters
    read, empty value included. A reader fails only when no entry has
    its key, and the error of a missing revision identifier is the same
    error, with the same message, as that of a missing image reference. *)
Theorem empty_required_values_are_accepted B r s :
  let config := GetConfig r in
  let envs := GetEnvs config in
  (lookupEnv guestImageEnv envs = Some "" -> getGuestImage config = Ok "") /\
  (lookupEnv revisionEnv envs = Some "" -> getRevisionId config = Ok "") /\
  (forall e, getGuestImage config = Err e <->
             lookupEnv guestImageEnv envs = None /\
             e = ErrorString "failed to provide non empty guest image in user container config") /\
  (forall e, getRevisionId config = Err e <->
             lookupEnv revisionEnv envs = None /\
             e = ErrorString "failed to provide non empty guest image in user container config") /\
  (forall e1 e2 config', getGuestImage config = Err e1 ->
             getRevisionId config' = Err e2 -> e1 = e2) /\
  (containerName r = userContainerName ->
   forall p, extractLaunchParameters config = Ok p ->
     (lookupEnv guestImageEnv envs = Some "" -> lpGuestImage p = "") /\
     (lookupEnv revisionEnv envs = Some "" -> lpRevision p = "") /\
     exists o s' t, CreateContainer B r s = (o, s', t) /\ In (EvBoot p) t).
Proof.
  intros config envs. subst envs.
  assert (Himg : forall c e, getGuestImage c = Err e <->
            lookupEnv guestImageEnv (GetEnvs c) = None /\ e = missingImageError).
  { intros c e. rewrite getGuestImage_lookup.
    destruct (lookupEnv guestImageEnv (GetEnvs c)).
    - split; [discriminate | intros [? _]; discriminate].
    - split; [intros [= <-]; auto | intros [_ ->]; reflexivity]. }
  assert (Hrev : forall c e, getRevisionId c = Err e <->
            lookupEnv revisionEnv (GetEnvs c) = None /\ e = missingImageError).
  { intros c e. rewrite getRevisionId_lookup.
    destruct (lookupEnv revisionEnv (GetEnvs c)).
    - split; [discriminate | intros [? _]; discriminate].
    - split; [intros [= <-]; auto | intros [_ ->]; reflexivity]. }
  split; [rewrite getGuestImage_lookup; intros ->; reflexivity |].
  split; [rewrite getRevisionId_lookup; intros ->; reflexivity |].
  split; [apply Himg |]. split; [apply Hrev |].
  split.
  { intros e1 e2 config' H1 H2.
    apply Himg in H1 as [_ ->]. apply Hrev in H2 as [_ ->]. reflexivity. }
  intros Hname p Hp.
  pose proof Hp as Hp'. unfold extractLaunchParameters in Hp'.
  rewrite getGuestImage_lookup, getRevisionId_lookup in Hp'.
  split; [| split].
  - intros Hempty. rewrite Hempty in Hp'.
    destruct (lookupEnv revisionEnv _); [| discriminate].
    destruct (getMemorySize config); [| discriminate].
    destruct (getvCPUCount config); [| discriminate].
    injection Hp' as <-. reflexivity.
  - intros Hempty. rewrite Hempty in Hp'.
    destruct (lookupEnv guestImageEnv _); [| discriminate].
    destruct (getMemorySize config); [| discriminate].
    destruct (getvCPUCount config); [| discriminate].
    injection Hp' as <-. reflexivity.
  - rewrite (CreateContainer_workload _ _ Hname), createUserContainer_run.
    fold config. rewrite Hp.
    destruct (bootAnswer B p); cbv zeta.
    + destruct (stockRuntimeClient_CreateContainer B r).
      * destruct (activeInstances s !! _); eexists _, _, _;
          (split; [reflexivity | cbn; tauto]).
      * eexists _, _, _. split; [reflexivity | cbn; tauto].
    + eexists _, _, _. split; [reflexivity | cbn; tauto].
Qed.

Lemma empty_required_values_are_accepted_witness :
  let r := mkRequest "pod-1" userContainerName
             [kv guestImageEnv ""; kv revisionEnv ""] in
  getGuestImage (GetConfig r) = Ok "" /\
  getRevisionId (GetConfig r) = Ok "" /\
  exists o s' t,
    CreateContainer goodBackend r emptyService = (o, s', t) /\
    In (EvStartVM "" "" 256 1) t.
Proof.
  intros r.
  destruct (empty_required_values_are_accepted goodBackend r emptyService)
    as (Himg & Hrev & _ & _ & _ & Hboot).
  split; [apply Himg; reflexivity |].
  split; [apply Hrev; reflexivity |].
  destruct (Hboot eq_refl
              {| lpGuestImage := ""; lpRevision := "";
                 lpMemSizeMib := 256; lpvCPUCount := 1 |} eq_refl)
    as (_ & _ & Hrun).
  exact Hrun.
Defined.

(** * Further properties *)

(** ** The readers, further *)

Lemma lookupEnv_first key pre e post :
  Forall (fun x => GetKey x <> key) pre -> GetKey e = key ->
  lookupEnv key (pre ++ e :: post) = Some (GetValue e).
Proof.
  intros Hpre He. induction Hpre as [|x pre Hx _ IH]; cbn [app lookupEnv].
  - rewrite He, String.eqb_refl. reflexivity.
  - destruct (String.eqb_spec (GetKey x) key); [contradiction | exact IH].
Qed.

Lemma lookupEnv_app key envs more :
  lookupEnv key (envs ++ more) =
  match lookupEnv key envs with
  | Some v => Some v
  | None => lookupEnv key more
  end.
Proof.
  induction envs as [|x envs IH]; cbn [app lookupEnv]; [reflexivity |].
  destruct (String.eqb (GetKey x) key); [reflexivity | exact IH].
Qed.

(** X1. Each of the four readers looks only at the first environment
    entry that has its key: entries before it with other keys and all
    entries after it, further entries with the same key included, make
    no difference. For the two numeric readers the first entry decides
    alone whether the result is a value or an error. *)
Theorem readers_use_first_entry md pre e post :
  let config := Some {| Metadata := md; Envs := pre ++ e :: post |} in
  let numeric :=
    match strconv.Atoi (GetValue e) with
    | Ok n => Ok (uint32 n)
    | Err err => Err err
    end in
  (Forall (fun x => GetKey x <> guestImageEnv) pre ->
   GetKey e = guestImageEnv -> getGuestImage config = Ok (GetValue e)) /\
  (Forall (fun x => GetKey x <> revisionEnv) pre ->
   GetKey e = revisionEnv -> getRevisionId config = Ok (GetValue e)) /\
  (Forall (fun x => GetKey x <> guestMemorySizeMibEnv) pre ->
   GetKey e = guestMemorySizeMibEnv -> getMemorySize config = numeric) /\
  (Forall (fun x => GetKey x <> guestvCPUCount) pre ->
   GetKey e = guestvCPUCount -> getvCPUCount config = numeric).
Proof.
  intros config numeric. subst config numeric.
  rewrite getGuestImage_lookup, getRevisionId_lookup,
    getMemorySize_lookup, getvCPUCount_lookup.
  cbn [GetEnvs Envs].
  repeat split; intros Hpre He; rewrite (lookupEnv_first _ _ _ _ Hpre He);
    reflexivity.
Qed.

Lemma readers_use_first_entry_witness :
  getMemorySize
    (Some {| Metadata := None;
             Envs := [kv guestImageEnv "fn:v1"] ++
                     kv guestMemorySizeMibEnv "512" ::
                     [kv guestMemorySizeMibEnv "junk"] |}) = Ok 512 /\
  isErr (getvCPUCount
    (Some {| Metadata := None;
             Envs := [] ++ kv guestvCPUCount "junk" ::
                     [kv guestvCPUCount "2"] |})) = true.
Proof.
  split.
  - destruct (readers_use_first_entry None [kv guestImageEnv "fn:v1"]
                (kv guestMemorySizeMibEnv "512")
                [kv guestMemorySizeMibEnv "junk"]) as (_ & _ & Hmem & _).
    rewrite Hmem; [reflexivity | | reflexivity].
    constructor; [discriminate | constructor].
  - destruct (readers_use_first_entry None [] (kv guestvCPUCount "junk")
                [kv guestvCPUCount "2"]) as (_ & _ & _ & Hcpu).
    rewrite Hcpu; [reflexivity | constructor | reflexivity].
Defined.

(** X2. A memory size or vCPU count written with a sign, or too large
    for 32 bits, is not refused: the value of an optionally signed
    decimal numeral that fits a 64-bit integer is returned reduced
    modulo [2^32], and a numeral that does not fit 64 bits is a range
    error. Whatever the environment, a value that is returned lies in
    the range of [uint32]. *)
Theorem numeric_values_are_reduced_modulo_2_32 config :
  let envs := GetEnvs config in
  (forall v n, lookupEnv guestMemorySizeMibEnv envs = Some v ->
     signedDecimalValue v = Some n ->
     getMemorySize config =
       if inInt64 n then Ok (n mod 2 ^ 32)
       else Err (NumError "Atoi" v ErrRange)) /\
  (forall v n, lookupEnv guestvCPUCount envs = Some v ->
     signedDecimalValue v = Some n ->
     getvCPUCount config =
       if inInt64 n then Ok (n mod 2 ^ 32)
       else Err (NumError "Atoi" v ErrRange)) /\
  (forall m, getMemorySize config = Ok m -> 0 <= m < 2 ^ 32) /\
  (forall m, getvCPUCount config = Ok m -> 0 <= m < 2 ^ 32).
Proof.
  intros envs. subst envs.
  rewrite getMemorySize_lookup, getvCPUCount_lookup.
  assert (Hrange : forall x, 0 <= uint32 x < 2 ^ 32).
  { intros x. unfold uint32. apply Z.mod_pos_bound. reflexivity. }
  split; [| split; [| split]].
  - intros v n -> Hn. rewrite (Atoi_exact v n Hn).
    destruct (inInt64 n); reflexivity.
  - intros v n -> Hn. rewrite (Atoi_exact v n Hn).
    destruct (inInt64 n); reflexivity.
  - intros m. destruct (lookupEnv guestMemorySizeMibEnv _) as [v|].
    + destruct (strconv.Atoi v); [| discriminate].
      intros [= <-]. apply Hrange.
    + intros [= <-]. change (2 ^ 32) with 4294967296. lia.
  - intros m. destruct (lookupEnv guestvCPUCount _) as [v|].
    + destruct (strconv.Atoi v); [| discriminate].
      intros [= <-]. apply Hrange.
    + intros [= <-]. change (2 ^ 32) with 4294967296. lia.
Qed.

Lemma numeric_values_are_reduced_modulo_2_32_witness :
  let config :=
    Some {| Metadata := None;
            Envs := [kv guestMemorySizeMibEnv "4294967297";
                     kv guestvCPUCount "-2"] |} in
  getMemorySize config = Ok 1 /\ getvCPUCount config = Ok 4294967294.
Proof.
  intros config.
  destruct (numeric_values_are_reduced_modulo_2_32 config)
    as (Hmem & Hcpu & _ & _).
  split.
  - apply (Hmem "4294967297" 4294967297); reflexivity.
  - apply (Hcpu "-2" (-2)); reflexivity.
Defined.

(** X3. A memory size or vCPU count that is present with the empty
    string as its value is refused with the syntax error of [Atoi]; the
    empty value is accepted only for the image reference and the
    revision identifier. *)
Theorem empty_numeric_value_is_refused config :
  let envs := GetEnvs config in
  (lookupEnv guestMemorySizeMibEnv envs = Some "" ->
   getMemorySize config = Err (NumError "Atoi" "" ErrSyntax)) /\
  (lookupEnv guestvCPUCount envs = Some "" ->
   getvCPUCount config = Err (NumError "Atoi" "" ErrSyntax)).
Proof.
  intros envs. subst envs.
  rewrite getMemorySize_lookup, getvCPUCount_lookup.
  split; intros ->; reflexivity.
Qed.

Lemma empty_numeric_value_is_refused_witness :
  getvCPUCount
    (Some {| Metadata := None;
             Envs := [kv guestImageEnv ""; kv guestvCPUCount ""] |})
  = Err (NumError "Atoi" "" ErrSyntax).
Proof.
  destruct (empty_numeric_value_is_refused
              (Some {| Metadata := None;
                       Envs := [kv guestImageEnv ""; kv guestvCPUCount ""] |}))
    as (_ & Hcpu).
  apply Hcpu. reflexivity.
Defined.

(** ** The dispatch *)

Lemma CreateContainer_other_run B r s :
  containerName r <> userContainerName ->
  containerName r <> queueProxyName ->
  CreateContainer B r s =
    (match stockRuntimeClient_CreateContainer B r with
     | Ok resp => Return resp
     | Err e => Fail e
     end, s, [EvStockCreate r]).
Proof.
  intros Huser Hqueue. unfold CreateContainer, containerName in *.
  cbv zeta.
  destruct (String.eqb_spec (GetName (GetMetadata (GetConfig r))) userContainerName);
    [contradiction |].
  destruct (String.eqb_spec (GetName (GetMetadata (GetConfig r))) queueProxyName);
    [contradiction |].
  cbv beta iota zeta delta [stockCreateContainer bind emit try ret fail].
  destruct (stockRuntimeClient_CreateContainer B r); reflexivity.
Qed.

Lemma CreateContainer_cases B r :
  (containerName r = userContainerName /\
   CreateContainer B r = createUserContainer B r) \/
  (containerName r = queueProxyName /\
   CreateContainer B r = createQueueProxy B r) \/
  (containerName r <> userContainerName /\
   containerName r <> queueProxyName).
Proof.
  destruct (String.eqb_spec (containerName r) userContainerName) as [Hu|Hu].
  - left. split; [exact Hu | apply CreateContainer_workload, Hu].
  - destruct (String.eqb_spec (containerName r) queueProxyName) as [Hq|Hq].
    + right. left. split; [exact Hq | apply CreateContainer_sidecar, Hq].
    + right. right. split; assumption.
Qed.

(** What one creation request can do to the service state and to the
    collaborators, whatever its path. *)
Lemma CreateContainer_effect B r s o s' t :
  CreateContainer B r s = (o, s', t) ->
  o <> Panic /\
  activeInstances s ⊆ activeInstances s' /\
  (forall pod', pod' <> GetPodSandboxId r ->
     podVMConfigs s' !! pod' = podVMConfigs s !! pod') /\
  dom (podVMConfigs s') ⊆
    dom (podVMConfigs s) ∪
    (if String.eqb (containerName r) userContainerName
     then {[ GetPodSandboxId r ]} else ∅) /\
  countEv isStockCall t =
    (if String.eqb (containerName r) queueProxyName
     then match podVMConfigs s !! GetPodSandboxId r with
          | Some _ => 1
          | None => 0
          end
     else 1)%nat /\
  countEv isStartVM t =
    (if String.eqb (containerName r) userContainerName
     then if isErr (extractLaunchParameters (GetConfig r)) then 0 else 1
     else 0)%nat.
Proof.
  intros Hrun.
  assert (Hdom0 : forall X Y : gset string, X ⊆ X ∪ Y).
  { intros X Y. apply union_subseteq_l. }
  destruct (CreateContainer_cases B r) as [[Hu Heq]|[[Hq Heq]|[Hu Hq]]].
  - rewrite Heq, createUserContainer_run in Hrun. rewrite Hu.
    change (String.eqb userContainerName userContainerName) with true.
    change (String.eqb userContainerName queueProxyName) with false.
    cbv iota.
    destruct (extractLaunchParameters (GetConfig r)) as [p|e].
    2: { injection Hrun as <- <- <-.
         split; [discriminate |]. split; [reflexivity |].
         split; [reflexivity |]. split; [apply Hdom0 |].
         split; reflexivity. }
    destruct (bootAnswer B p) as [fi|e].
    2: { injection Hrun as <- <- <-.
         split; [discriminate |]. split; [reflexivity |].
         split; [reflexivity |]. split; [apply Hdom0 |].
         split; reflexivity. }
    cbv zeta in Hrun.
    assert (Hframe : forall pod' (m : gmap string VMConfig) x,
              pod' <> GetPodSandboxId r ->
              <[GetPodSandboxId r := x]> m !! pod' = m !! pod').
    { intros pod' m x Hne. apply lookup_insert_ne. congruence. }
    assert (Hdom : forall (m : gmap string VMConfig) x,
              dom (<[GetPodSandboxId r := x]> m) ⊆ dom m ∪ {[GetPodSandboxId r]}).
    { intros m x. rewrite dom_insert_L, (comm_L (∪)). reflexivity. }
    destruct (stockRuntimeClient_CreateContainer B r) as [resp|e].
    2: { injection Hrun as <- <- <-.
         split; [discriminate |]. split; [reflexivity |].
         split; [intros pod' Hne; apply Hframe, Hne |].
         split; [apply Hdom |]. split; reflexivity. }
    destruct (activeInstances s !! ContainerId resp) eqn:Hid.
    + injection Hrun as <- <- <-.
      split; [discriminate |]. split; [reflexivity |].
      split; [intros pod' Hne; apply Hframe, Hne |].
      split; [apply Hdom |]. split; reflexivity.
    + injection Hrun as <- <- <-.
      split; [discriminate |].
      split; [apply insert_subseteq, Hid |].
      split; [intros pod' Hne; apply Hframe, Hne |].
      split; [apply Hdom |]. split; reflexivity.
  - rewrite Heq, createQueueProxy_run in Hrun. rewrite Hq.
    change (String.eqb queueProxyName userContainerName) with false.
    change (String.eqb queueProxyName queueProxyName) with true.
    cbv iota. cbv zeta in Hrun.
    destruct (podVMConfigs s !! GetPodSandboxId r) as [vmConfig|].
    2: { injection Hrun as <- <- <-.
         split; [discriminate |]. split; [reflexivity |].
         split; [reflexivity |]. split; [apply Hdom0 |].
         split; reflexivity. }
    destruct (sidecar_has_config r Hq) as [c Hc]. rewrite Hc in Hrun.
    injection Hrun as <- <- <-.
    split; [destruct (stockRuntimeClient_CreateContainer B _); congruence |].
    split; [reflexivity |].
    split; [intros pod' Hne; apply lookup_delete_ne; congruence |].
    split.
    { cbn [podVMConfigs setPodVMConfigs]. rewrite dom_delete_L.
      apply union_subseteq_l', subseteq_difference_l. reflexivity. }
    split; reflexivity.
  - rewrite (CreateContainer_other_run B r s Hu Hq) in Hrun.
    injection Hrun as <- <- <-.
    destruct (String.eqb_spec (containerName r) userContainerName);
      [contradiction |].
    destruct (String.eqb_spec (containerName r) queueProxyName);
      [contradiction |].
    split; [destruct (stockRuntimeClient_CreateContainer B r); congruence |].
    split; [reflexivity |].
    split; [reflexivity |].
    split; [apply Hdom0 |].
    split; reflexivity.
Qed.

(** X4. A request whose container name is neither [user-container] nor
    [queue-proxy] is handed to the stock runtime as it is, once and in
    line; the runtime's answer is returned unchanged and the service
    state is untouched. A request without configuration or without
    metadata has the empty name and takes this path. *)
Theorem control_plane_request_is_forwarded B r s :
  let forwarded :=
    (match stockRuntimeClient_CreateContainer B r with
     | Ok resp => Return resp
     | Err e => Fail e
     end, s, [EvStockCreate r]) in
  (containerName r <> userContainerName ->
   containerName r <> queueProxyName ->
   CreateContainer B r s = forwarded) /\
  (GetMetadata (GetConfig r) = None -> CreateContainer B r s = forwarded).
Proof.
  intros forwarded. subst forwarded. split.
  - apply CreateContainer_other_run.
  - intros Hnone. apply CreateContainer_other_run;
      unfold containerName; rewrite Hnone; discriminate.
Qed.

Lemma control_plane_request_is_forwarded_witness :
  CreateContainer goodBackend controlPlaneRequest emptyService =
    (Return sampleResponse, emptyService, [EvStockCreate controlPlaneRequest]) /\
  CreateContainer stockFailsBackend
    {| PodSandboxId := "pod-1"; Config := None |} emptyService =
    (Fail (ErrCollaborator "stock runtime failed"), emptyService,
     [EvStockCreate {| PodSandboxId := "pod-1"; Config := None |}]).
Proof.
  split.
  - destruct (control_plane_request_is_forwarded goodBackend
                controlPlaneRequest emptyService) as [H _].
    apply H; discriminate.
  - destruct (control_plane_request_is_forwarded stockFailsBackend
                {| PodSandboxId := "pod-1"; Config := None |} emptyService)
      as [_ H].
    apply H. reflexivity.
Defined.

(** X5. The sidecar path writes through the request's configuration
    pointer when it appends the two variables. Run on a request without
    configuration it panics there, after it has already removed the
    pod's entry from the store. The dispatch never does that: a request
    named [queue-proxy] has a configuration, and with a stored entry it
    passes the append and reaches the call of the stock runtime; a
    request without configuration is forwarded by the control-plane
    path, the store untouched. *)
Theorem sidecar_config_dereference_is_guarded B r s :
  let pod := GetPodSandboxId r in
  (containerName r = queueProxyName ->
   exists c,
     Config r = Some c /\
     forall vmConfig,
       podVMConfigs s !! pod = Some vmConfig ->
       exists o s' r',
         CreateContainer B r s =
           (o, s',
            [EvGetPodVMConfig pod; EvRemovePodVMConfig pod; EvStockCreate r'])) /\
  (forall vmConfig,
     Config r = None ->
     podVMConfigs s !! pod = Some vmConfig ->
     createQueueProxy B r s =
       (Panic,
        setPodVMConfigs s (delete pod (podVMConfigs s)),
        [EvGetPodVMConfig pod; EvRemovePodVMConfig pod]) /\
     CreateContainer B r s =
       (match stockRuntimeClient_CreateContainer B r with
        | Ok resp => Return resp
        | Err e => Fail e
        end, s, [EvStockCreate r])).
Proof.
  intros pod. subst pod. split.
  - intros Hname. destruct (sidecar_has_config r Hname) as [c Hc].
    exists c. split; [exact Hc |].
    intros vmConfig Hsome.
    rewrite (sidecar_with_config_run B r s c vmConfig Hname Hc Hsome).
    eexists _, _, _. reflexivity.
  - intros vmConfig Hc Hsome. split.
    + rewrite createQueueProxy_run. cbv zeta. rewrite Hsome, Hc. reflexivity.
    + apply CreateContainer_other_run;
        unfold containerName, GetConfig; rewrite Hc; discriminate.
Qed.

Lemma sidecar_config_dereference_is_guarded_witness :
  let r := {| PodSandboxId := "pod-1"; Config := None |} in
  let s := setPodVMConfigs emptyService {["pod-1" := vmConfigOf sampleInstance]} in
  fst (fst (createQueueProxy goodBackend r s)) = Panic /\
  CreateContainer goodBackend r s = (Return sampleResponse, s, [EvStockCreate r]) /\
  exists o s' r',
    CreateContainer goodBackend sidecarRequest s =
      (o, s',
       [EvGetPodVMConfig "pod-1"; EvRemovePodVMConfig "pod-1"; EvStockCreate r']).
Proof.
  intros r s.
  destruct (sidecar_config_dereference_is_guarded goodBackend r s) as [_ H].
  destruct (H (vmConfigOf sampleInstance) eq_refl eq_refl) as [Hpanic Hrun].
  split; [rewrite Hpanic; reflexivity |].
  split; [exact Hrun |].
  destruct (sidecar_config_dereference_is_guarded goodBackend sidecarRequest s)
    as [H' _].
  destruct (H' eq_refl) as (c & _ & Hreach).
  apply (Hreach (vmConfigOf sampleInstance)). reflexivity.
Defined.

(** X6. One creation request issues exactly one creation request to the
    stock runtime, except a sidecar request for a pod without entry,
    which issues none; it asks the VM supervisor for exactly one boot if
    it is a workload request whose launch parameters are read without
    error, and for none otherwise. *)
Theorem collaborators_are_called_at_most_once B r s o s' t :
  CreateContainer B r s = (o, s', t) ->
  countEv isStockCall t =
    (if String.eqb (containerName r) queueProxyName
     then match podVMConfigs s !! GetPodSandboxId r with
          | Some _ => 1
          | None => 0
          end
     else 1)%nat /\
  countEv isStartVM t =
    (if String.eqb (containerName r) userContainerName
     then if isErr (extractLaunchParameters (GetConfig r)) then 0 else 1
     else 0)%nat.
Proof.
  intros Hrun. apply (CreateContainer_effect B r s o s' t Hrun).
Qed.

Lemma collaborators_are_called_at_most_once_witness :
  exists o s' t,
    CreateContainer goodBackend workloadRequest emptyService = (o, s', t) /\
    countEv isStockCall t = 1%nat /\ countEv isStartVM t = 1%nat.
Proof.
  destruct (CreateContainer goodBackend workloadRequest emptyService)
    as [[o s'] t] eqn:Hrun.
  exists o, s', t. split; [reflexivity |].
  apply (collaborators_are_called_at_most_once goodBackend workloadRequest
           emptyService o s' t Hrun).
Defined.

(** ** The workload path, further *)

(** X7. The launch parameters are checked in the order image reference,
    revision identifier, memory size, vCPU count, and the first check
    that fails decides the error of the request: a missing image
    reference is reported whatever the other entries are, a refused
    memory size is reported before a refused vCPU count. In each case
    the request ends before the boot, with the goroutine started. *)
Theorem first_failing_parameter_decides B r s :
  containerName r = userContainerName ->
  let envs := GetEnvs (GetConfig r) in
  let aborted e := CreateContainer B r s = (Fail e, s, [EvGoStockCreate r]) in
  (lookupEnv guestImageEnv envs = None -> aborted missingImageError) /\
  (forall img, lookupEnv guestImageEnv envs = Some img ->
     lookupEnv revisionEnv envs = None -> aborted missingImageError) /\
  (forall img rev v e,
     lookupEnv guestImageEnv envs = Some img ->
     lookupEnv revisionEnv envs = Some rev ->
     lookupEnv guestMemorySizeMibEnv envs = Some v ->
     strconv.Atoi v = Err e -> aborted e) /\
  (forall img rev mem v e,
     lookupEnv guestImageEnv envs = Some img ->
     lookupEnv revisionEnv envs = Some rev ->
     getMemorySize (GetConfig r) = Ok mem ->
     lookupEnv guestvCPUCount envs = Some v ->
     strconv.Atoi v = Err e -> aborted e).
Proof.
  intros Hname envs aborted. subst envs aborted. cbv beta.
  rewrite (CreateContainer_workload _ _ Hname), createUserContainer_run.
  unfold extractLaunchParameters.
  rewrite getGuestImage_lookup, getRevisionId_lookup.
  split; [intros ->; reflexivity |].
  split; [intros img -> ->; reflexivity |].
  split.
  - intros img rev v e -> -> Hv He.
    rewrite getMemorySize_lookup, Hv, He. reflexivity.
  - intros img rev mem v e -> -> -> Hv He.
    rewrite getvCPUCount_lookup, Hv, He. reflexivity.
Qed.

Lemma first_failing_parameter_decides_witness :
  let r := mkRequest "pod-1" userContainerName
             [kv guestMemorySizeMibEnv "lots"; kv guestvCPUCount "many";
              kv revisionEnv "rev-7"] in
  CreateContainer goodBackend r emptyService =
    (Fail missingImageError, emptyService, [EvGoStockCreate r]).
Proof.
  intros r.
  destruct (first_failing_parameter_decides goodBackend r emptyService eq_refl)
    as (Himg & _).
  apply Himg. reflexivity.
Defined.

(** X8. When the launch parameters are read without error, the VM
    supervisor is asked for the boot right after the goroutine is
    started, with the values of the first image and revision entries
    and the two numbers read; a request that carries neither a memory
    size nor a vCPU count boots with 256 MiB and 1 vCPU. *)
Theorem boot_uses_the_values_read B r s img rev :
  containerName r = userContainerName ->
  let config := GetConfig r in
  lookupEnv guestImageEnv (GetEnvs config) = Some img ->
  lookupEnv revisionEnv (GetEnvs config) = Some rev ->
  (forall mem cpu,
     getMemorySize config = Ok mem -> getvCPUCount config = Ok cpu ->
     exists o s' rest,
       CreateContainer B r s =
         (o, s', EvGoStockCreate r :: EvStartVM img rev mem cpu :: rest)) /\
  (lookupEnv guestMemorySizeMibEnv (GetEnvs config) = None ->
   lookupEnv guestvCPUCount (GetEnvs config) = None ->
   exists o s' rest,
     CreateContainer B r s =
       (o, s', EvGoStockCreate r :: EvStartVM img rev 256 1 :: rest)).
Proof.
  intros Hname config Himg Hrev.
  assert (Hgen : forall mem cpu,
     getMemorySize config = Ok mem -> getvCPUCount config = Ok cpu ->
     exists o s' rest,
       CreateContainer B r s =
         (o, s', EvGoStockCreate r :: EvStartVM img rev mem cpu :: rest)).
  { intros mem cpu Hmem Hcpu.
    rewrite (CreateContainer_workload _ _ Hname), createUserContainer_run.
    unfold extractLaunchParameters. fold config.
    rewrite getGuestImage_lookup, getRevisionId_lookup, Himg, Hrev, Hmem, Hcpu.
    unfold EvBoot.
    cbn [lpGuestImage lpRevision lpMemSizeMib lpvCPUCount].
    destruct (bootAnswer B _); cbv zeta.
    - destruct (stockRuntimeClient_CreateContainer B r).
      + destruct (activeInstances s !! _); eexists _, _, _; reflexivity.
      + eexists _, _, _; reflexivity.
    - eexists _, _, _; reflexivity. }
  split; [exact Hgen |].
  intros Hmem Hcpu. apply Hgen.
  - rewrite getMemorySize_lookup. fold config. rewrite Hmem. reflexivity.
  - rewrite getvCPUCount_lookup. fold config. rewrite Hcpu. reflexivity.
Qed.

Lemma boot_uses_the_values_read_witness :
  exists o s' rest,
    CreateContainer bootFailsBackend workloadRequest emptyService =
      (o, s',
       EvGoStockCreate workloadRequest :: EvStartVM "fn:v1" "rev-7" 256 1 :: rest).
Proof.
  destruct (boot_uses_the_values_read bootFailsBackend workloadRequest
              emptyService "fn:v1" "rev-7" eq_refl eq_refl eq_refl)
    as [_ Hdefault].
  apply Hdefault; reflexivity.
Defined.

(** X9. A workload request succeeds exactly when its launch parameters
    are read without error, the boot succeeds, the placeholder creation
    succeeds and the container identifier it returns is not yet in the
    registry; the response is then the stock runtime's. *)
Theorem workload_succeeds_exactly_when B r s resp :
  containerName r = userContainerName ->
  (exists s' t, CreateContainer B r s = (Return resp, s', t)) <->
  (exists p fi,
     extractLaunchParameters (GetConfig r) = Ok p /\
     bootAnswer B p = Ok fi /\
     stockRuntimeClient_CreateContainer B r = Ok resp /\
     activeInstances s !! ContainerId resp = None).
Proof.
  intros Hname.
  rewrite (CreateContainer_workload _ _ Hname), createUserContainer_run.
  split.
  - intros (s' & t & Hrun).
    destruct (extractLaunchParameters (GetConfig r)) as [p|e]; [| discriminate].
    destruct (bootAnswer B p) as [fi|e] eqn:Hboot; [| discriminate].
    cbv zeta in Hrun.
    destruct (stockRuntimeClient_CreateContainer B r) as [resp'|e];
      [| discriminate].
    destruct (activeInstances s !! ContainerId resp') eqn:Hid; [discriminate |].
    injection Hrun as -> _ _.
    exists p, fi. repeat split; assumption || reflexivity.
  - intros (p & fi & -> & -> & Hstock & Hid).
    cbv zeta. rewrite Hstock, Hid. eexists _, _. reflexivity.
Qed.

Lemma workload_succeeds_exactly_when_witness :
  exists s' t,
    CreateContainer goodBackend workloadRequest emptyService =
      (Return sampleResponse, s', t).
Proof.
  apply (workload_succeeds_exactly_when goodBackend workloadRequest
           emptyService sampleResponse eq_refl).
  exists sampleParameters, sampleInstance.
  repeat split; reflexivity.
Defined.

(** X10. A workload request whose boot succeeds but whose placeholder
    creation fails leaves the VM's configuration in the Pod VM Config
    Store although the request failed and nothing was registered: a
    sidecar request for the same pod made afterwards finds the entry,
    consumes it and is forwarded to the stock runtime with the address
    of that VM. *)
Theorem failed_placeholder_leaves_config B1 B2 r q c s p fi e :
  containerName r = userContainerName ->
  containerName q = queueProxyName ->
  GetPodSandboxId q = GetPodSandboxId r ->
  Config q = Some c ->
  extractLaunchParameters (GetConfig r) = Ok p ->
  bootAnswer B1 p = Ok fi ->
  stockRuntimeClient_CreateContainer B1 r = Err e ->
  let pod := GetPodSandboxId r in
  let q' := withGuestEnvs q c (vmConfigOf fi) in
  exists s1 t1 s2,
    CreateContainer B1 r s = (Fail e, s1, t1) /\
    podVMConfigs s1 !! pod = Some (vmConfigOf fi) /\
    activeInstances s1 = activeInstances s /\
    CreateContainer B2 q s1 =
      (match stockRuntimeClient_CreateContainer B2 q' with
       | Ok resp => Return resp
       | Err e' => Fail e'
       end, s2,
       [EvGetPodVMConfig pod; EvRemovePodVMConfig pod; EvStockCreate q']).
Proof.
  intros Hr Hq Hpod Hc Hp Hboot Hstock pod q'. subst pod q'.
  rewrite (CreateContainer_workload _ _ Hr), createUserContainer_run.
  rewrite Hp, Hboot. cbv zeta. rewrite Hstock.
  set (s1 := setPodVMConfigs s _).
  assert (Hpub : podVMConfigs s1 !! GetPodSandboxId r = Some (vmConfigOf fi)).
  { unfold s1. cbn [podVMConfigs setPodVMConfigs]. apply lookup_insert_eq. }
  eexists s1, _, _.
  split; [reflexivity |]. split; [exact Hpub |]. split; [reflexivity |].
  rewrite <- Hpod in Hpub.
  rewrite (sidecar_with_config_run B2 q s1 c (vmConfigOf fi) Hq Hc Hpub).
  cbv zeta. rewrite Hpod. reflexivity.
Qed.

Lemma failed_placeholder_leaves_config_witness :
  exists s1 t1 s2,
    CreateContainer stockFailsBackend workloadRequest emptyService =
      (Fail (ErrCollaborator "stock runtime failed"), s1, t1) /\
    podVMConfigs s1 !! "pod-1" = Some (vmConfigOf sampleInstance) /\
    CreateContainer goodBackend sidecarRequest s1 =
      (Return sampleResponse, s2,
       [EvGetPodVMConfig "pod-1"; EvRemovePodVMConfig "pod-1";
        EvStockCreate
          (mkRequest "pod-1" queueProxyName
             [kv "SERVING_NAMESPACE" "default";
              kv "GUEST_ADDR" "172.16.0.2"; kv "GUEST_PORT" "50051"])]).
Proof.
  destruct (failed_placeholder_leaves_config stockFailsBackend goodBackend
              workloadRequest sidecarRequest
              {| Metadata := Some {| Name := queueProxyName |};
                 Envs := [kv "SERVING_NAMESPACE" "default"] |}
              emptyService sampleParameters sampleInstance
              (ErrCollaborator "stock runtime failed")
              eq_refl eq_refl eq_refl eq_refl eq_refl eq_refl eq_refl)
    as (s1 & t1 & s2 & Hrun & Hpub & _ & Hside).
  exists s1, t1, s2. split; [exact Hrun |]. split; [exact Hpub | exact Hside].
Defined.

(** X11. A workload request repeated while its container identifier is
    still registered fails with the duplicate-key error only after it
    has booted a second VM and replaced the pod's configuration by that
    of the second VM; the registry keeps the first instance. *)
Theorem repeated_workload_boots_again B1 B2 r s0 p fi1 fi2 resp1 resp2 :
  containerName r = userContainerName ->
  extractLaunchParameters (GetConfig r) = Ok p ->
  bootAnswer B1 p = Ok fi1 ->
  stockRuntimeClient_CreateContainer B1 r = Ok resp1 ->
  activeInstances s0 !! ContainerId resp1 = None ->
  bootAnswer B2 p = Ok fi2 ->
  stockRuntimeClient_CreateContainer B2 r = Ok resp2 ->
  ContainerId resp2 = ContainerId resp1 ->
  let id := ContainerId resp1 in
  let pod := GetPodSandboxId r in
  exists s1 t1 s2 t2,
    CreateContainer B1 r s0 = (Return resp1, s1, t1) /\
    CreateContainer B2 r s1 = (Fail (ErrAlreadyActive id), s2, t2) /\
    In (EvBoot p) t2 /\
    activeInstances s2 !! id = Some fi1 /\
    podVMConfigs s2 !! pod = Some (vmConfigOf fi2).
Proof.
  intros Hr Hp Hboot1 Hstock1 Hfree Hboot2 Hstock2 Hid id pod. subst id pod.
  set (s1 := setActiveInstances
               (setPodVMConfigs s0
                  (<[GetPodSandboxId r := vmConfigOf fi1]> (podVMConfigs s0)))
               (<[ContainerId resp1 := fi1]> (activeInstances s0))).
  assert (H1 : exists t1, CreateContainer B1 r s0 = (Return resp1, s1, t1)).
  { rewrite (CreateContainer_workload _ _ Hr), createUserContainer_run.
    rewrite Hp, Hboot1. cbv zeta. rewrite Hstock1, Hfree.
    eexists. reflexivity. }
  destruct H1 as [t1 H1].
  assert (Hreg : activeInstances s1 !! ContainerId resp1 = Some fi1).
  { unfold s1. cbn [activeInstances setActiveInstances]. apply lookup_insert_eq. }
  exists s1, t1.
  rewrite (CreateContainer_workload B2 _ Hr), createUserContainer_run.
  rewrite Hp, Hboot2. cbv zeta. rewrite Hstock2, Hid, Hreg.
  eexists _, _.
  split; [exact H1 |]. split; [reflexivity |].
  split; [cbn; tauto |].
  split; [exact Hreg |].
  cbn [podVMConfigs setPodVMConfigs]. apply lookup_insert_eq.
Qed.

Lemma repeated_workload_boots_again_witness :
  exists s1 t1 s2 t2,
    CreateContainer goodBackend workloadRequest emptyService =
      (Return sampleResponse, s1, t1) /\
    CreateContainer secondBackend workloadRequest s1 =
      (Fail (ErrAlreadyActive "c-1"), s2, t2) /\
    In (EvStartVM "fn:v1" "rev-7" 256 1) t2 /\
    activeInstances s2 !! "c-1" = Some sampleInstance /\
    podVMConfigs s2 !! "pod-1" =
      Some {| guestIP := "172.16.0.3"; guestPort := "50051" |}.
Proof.
  apply (repeated_workload_boots_again goodBackend secondBackend
           workloadRequest emptyService sampleParameters
           sampleInstance secondInstance sampleResponse sampleResponse);
    reflexivity.
Defined.

(** ** The sidecar path, further *)

(** X12. A sidecar request never boots a VM, never publishes a
    configuration and never touches the Active VM Registry; whether it
    succeeds or fails, the Pod VM Config Store afterwards is the store
    before without the entry of the request's pod. *)
Theorem sidecar_only_consumes B r s o s' t :
  containerName r = queueProxyName ->
  CreateContainer B r s = (o, s', t) ->
  activeInstances s' = activeInstances s /\
  podVMConfigs s' = delete (GetPodSandboxId r) (podVMConfigs s) /\
  countEv isStartVM t = 0%nat /\
  countEv isInsertPodVMConfig t = 0%nat /\
  countEv isInsertActive t = 0%nat.
Proof.
  intros Hname Hrun.
  rewrite (CreateContainer_sidecar _ _ Hname), createQueueProxy_run in Hrun.
  cbv zeta in Hrun.
  destruct (podVMConfigs s !! GetPodSandboxId r) as [vmConfig|] eqn:Hentry.
  - destruct (sidecar_has_config r Hname) as [c Hc]. rewrite Hc in Hrun.
    injection Hrun as <- <- <-. repeat split.
  - injection Hrun as <- <- <-.
    rewrite (delete_id _ _ Hentry). repeat split.
Qed.

Lemma sidecar_only_consumes_witness :
  let s := setPodVMConfigs emptyService {["pod-1" := vmConfigOf sampleInstance]} in
  exists o s' t,
    CreateContainer goodBackend sidecarRequest s = (o, s', t) /\
    activeInstances s' = activeInstances s /\
    podVMConfigs s' = delete "pod-1" (podVMConfigs s).
Proof.
  intros s.
  destruct (CreateContainer goodBackend sidecarRequest s) as [[o s'] t] eqn:Hrun.
  exists o, s', t. split; [reflexivity |].
  destruct (sidecar_only_consumes goodBackend sidecarRequest s o s' t
              eq_refl Hrun) as (Hreg & Hstore & _).
  split; [exact Hreg | exact Hstore].
Defined.

(** X13. The request a sidecar request hands to the stock runtime
    keeps the pod-sandbox identifier, the metadata and every environment
    entry of the incoming request, in order; the two injected entries
    [GUEST_ADDR] and [GUEST_PORT], with the address and port stored for
    the pod, come last, so nothing the request carried is removed or
    replaced. Read by first match, every key the request carried keeps
    its value, and the two injected keys give the stored address and
    port when the request did not carry them. *)
Theorem sidecar_injection_appends B r s c vmConfig :
  containerName r = queueProxyName ->
  Config r = Some c ->
  podVMConfigs s !! GetPodSandboxId r = Some vmConfig ->
  let pod := GetPodSandboxId r in
  exists o s' r',
    let envs' := GetEnvs (GetConfig r') in
    CreateContainer B r s =
      (o, s',
       [EvGetPodVMConfig pod; EvRemovePodVMConfig pod; EvStockCreate r']) /\
    GetPodSandboxId r' = GetPodSandboxId r /\
    GetMetadata (GetConfig r') = GetMetadata (GetConfig r) /\
    firstn (length (Envs c)) envs' = Envs c /\
    skipn (length (Envs c)) envs' =
      [ {| Key := "GUEST_ADDR"; Value := guestIP vmConfig |};
        {| Key := "GUEST_PORT"; Value := guestPort vmConfig |} ] /\
    (forall k v, lookupEnv k (Envs c) = Some v -> lookupEnv k envs' = Some v) /\
    (lookupEnv "GUEST_ADDR" (Envs c) = None ->
     lookupEnv "GUEST_ADDR" envs' = Some (guestIP vmConfig)) /\
    (lookupEnv "GUEST_PORT" (Envs c) = None ->
     lookupEnv "GUEST_PORT" envs' = Some (guestPort vmConfig)).
Proof.
  intros Hname Hc Hsome pod. subst pod.
  rewrite (sidecar_with_config_run B r s c vmConfig Hname Hc Hsome).
  cbv zeta. eexists _, _, _. split; [reflexivity |].
  unfold withGuestEnvs, GetConfig, GetPodSandboxId.
  cbn [Config PodSandboxId GetEnvs GetMetadata Envs Metadata]. rewrite Hc.
  split; [reflexivity |]. split; [reflexivity |].
  split; [apply take_app_length |]. split; [apply drop_app_length |].
  split; [| split].
  - intros k v Hk. rewrite lookupEnv_app, Hk. reflexivity.
  - intros Hk. rewrite lookupEnv_app, Hk. reflexivity.
  - intros Hk. rewrite lookupEnv_app, Hk. reflexivity.
Qed.

Lemma sidecar_injection_appends_witness :
  let s := setPodVMConfigs emptyService {["pod-1" := vmConfigOf sampleInstance]} in
  exists o s' r',
    CreateContainer goodBackend sidecarRequest s =
      (o, s',
       [EvGetPodVMConfig "pod-1"; EvRemovePodVMConfig "pod-1"; EvStockCreate r']) /\
    lookupEnv "SERVING_NAMESPACE" (GetEnvs (GetConfig r')) = Some "default" /\
    lookupEnv "GUEST_ADDR" (GetEnvs (GetConfig r')) = Some "172.16.0.2" /\
    lookupEnv "GUEST_PORT" (GetEnvs (GetConfig r')) = Some "50051".
Proof.
  intros s.
  destruct (sidecar_injection_appends goodBackend sidecarRequest s
              {| Metadata := Some {| Name := queueProxyName |};
                 Envs := [kv "SERVING_NAMESPACE" "default"] |}
              (vmConfigOf sampleInstance) eq_refl eq_refl eq_refl)
    as (o & s' & r' & Hrun & _ & _ & _ & _ & Hkeep & Haddr & Hport).
  exists o, s', r'. split; [exact Hrun |].
  split; [apply Hkeep; reflexivity |].
  split; [apply Haddr; reflexivity | apply Hport; reflexivity].
Defined.

(** ** Sequences of creation requests *)

Lemma serve_cons B r reqs s :
  serve ((B, r) :: reqs) s = serve reqs (snd (fst (CreateContainer B r s))).
Proof.
  cbn [serve]. destruct (CreateContainer B r s) as [[o s'] t]. reflexivity.
Qed.

(** X14. Whatever creation requests are served, and however they end, an
    entry of the Active VM Registry is never removed and never replaced
    by them: an identifier registered for an instance stays registered
    for that instance. *)
Theorem registry_entries_persist reqs s id fi :
  activeInstances s !! id = Some fi ->
  activeInstances (serve reqs s) !! id = Some fi.
Proof.
  revert s. induction reqs as [|[B r] reqs IH]; intros s Hid; [exact Hid |].
  rewrite serve_cons. apply IH.
  destruct (CreateContainer B r s) as [[o s'] t] eqn:Hrun.
  destruct (CreateContainer_effect B r s o s' t Hrun) as (_ & Hsub & _).
  cbn [fst snd]. exact (lookup_weaken _ _ _ _ Hid Hsub).
Qed.

Lemma registry_entries_persist_witness :
  let s := setActiveInstances emptyService {["c-0" := secondInstance]} in
  activeInstances
    (serve [(goodBackend, workloadRequest); (stockFailsBackend, sidecarRequest);
            (secondBackend, workloadRequest)] s) !! "c-0"
  = Some secondInstance.
Proof.
  intros s. apply registry_entries_persist. reflexivity.
Defined.

(** X15. Creation requests for other pods leave a pod's entry in the
    Pod VM Config Store as it is: the entry can be created, replaced or
    consumed only by a request that carries the pod's own sandbox
    identifier. *)
Theorem other_pods_leave_entry_alone reqs s pod :
  Forall (fun Br => GetPodSandboxId (snd Br) <> pod) reqs ->
  podVMConfigs (serve reqs s) !! pod = podVMConfigs s !! pod.
Proof.
  intros Hreqs. revert s.
  induction Hreqs as [|[B r] reqs Hr _ IH]; intros s; [reflexivity |].
  rewrite serve_cons, IH.
  destruct (CreateContainer B r s) as [[o s'] t] eqn:Hrun.
  destruct (CreateContainer_effect B r s o s' t Hrun) as (_ & _ & Hframe & _).
  cbn [fst snd] in *. apply Hframe. congruence.
Qed.

Lemma other_pods_leave_entry_alone_witness :
  let s := setPodVMConfigs emptyService {["pod-2" := vmConfigOf secondInstance]} in
  podVMConfigs
    (serve [(goodBackend, workloadRequest); (goodBackend, sidecarRequest);
            (goodBackend, sidecarRequest)] s) !! "pod-2"
  = Some (vmConfigOf secondInstance).
Proof.
  intros s.
  rewrite (other_pods_leave_entry_alone _ s "pod-2"); [reflexivity |].
  repeat constructor; discriminate.
Defined.

(** X16. Only workload requests put entries into the Pod VM Config
    Store: after any sequence of creation requests, every pod with an
    entry either had one before or is the pod of a workload request of
    the sequence. *)
Theorem only_workload_requests_publish reqs s :
  dom (podVMConfigs (serve reqs s)) ⊆ dom (podVMConfigs s) ∪ workloadPods reqs.
Proof.
  revert s. induction reqs as [|[B r] reqs IH]; intros s.
  - cbn [serve workloadPods]. apply union_subseteq_l.
  - rewrite serve_cons.
    destruct (CreateContainer B r s) as [[o s'] t] eqn:Hrun.
    destruct (CreateContainer_effect B r s o s' t Hrun) as (_ & _ & _ & Hdom & _).
    cbn [fst snd workloadPods].
    etransitivity; [apply IH |].
    destruct (String.eqb (containerName r) userContainerName).
    + intros x Hx. apply elem_of_union in Hx as [Hx|Hx].
      * apply Hdom in Hx. apply elem_of_union in Hx as [Hx|Hx].
        -- apply elem_of_union_l, Hx.
        -- apply elem_of_union_r, elem_of_union_l, Hx.
      * apply elem_of_union_r, elem_of_union_r, Hx.
    + intros x Hx. apply elem_of_union in Hx as [Hx|Hx].
      * apply Hdom in Hx. apply elem_of_union in Hx as [Hx|Hx].
        -- apply elem_of_union_l, Hx.
        -- apply elem_of_empty in Hx. contradiction.
      * apply elem_of_union_r, Hx.
Qed.
